(** * obsign: the [sign] workflow of [src/obsign/__main__.py]

    A shallow embedding of the command-line tool's only operation.  The
    program is a straight-line Python function that computes a versioned
    output name from a directory scan and then drives [gpg], [openssl] and
    [curl] through [subprocess.run].

    Modelling choices:
    - Python [str] is [string]; a character is an [ascii] code point.
    - Python [int] is [Z].
    - A [pathlib.Path] is the list of its components below the root.
    - The signature directory is a finite map from entry names to file
      contents ([gmap string string]); every artifact of the workflow lives
      directly in that directory.
    - External programs are an oracle [exec]: from the argument vector and
      the directory before the call to a [CompletedProcess] and the
      directory after the call.  Nothing is assumed about the oracle; a
      program that cannot be started is not modelled.
    - [sign] is written in a state-and-exception monad; the state carries
      the directory and a log of the observable actions ([console.print],
      [subprocess.run], [open(..., "w")]) in program order.
    - [console.print] parses its argument as console markup and raises
      [MarkupError] when a closing tag has nothing to close; the paths and
      the program output that [sign] interpolates are not escaped, so
      every message built from them can fail.  A message that renders is
      logged as the string handed to [console.print]; one that does not
      is not logged.  Of rich, [Style.normalize] and the evaluation of
      handler parameters are parameters of the model ([Rich.library]).
    - Library behaviour ([str] slicing, [int()], format spec [03],
      [PurePath.suffix], [PurePath.relative_to], [Path.glob] with
      [fnmatch] patterns) follows CPython 3.8 to 3.12 on a POSIX system. *)

From Stdlib Require Import ZArith Ascii.
From stdpp Require Import base decidable option list numbers strings pretty gmap fin_maps.

Local Open Scope Z_scope.

(** ** Python built-ins used by [sign] *)

Module Py.

(** [len(s)] as an integer. *)
Definition len (s : string) : Z := Z.of_nat (String.length s).

Definition chars (s : string) : list ascii := String.list_ascii_of_string s.
Definition text (l : list ascii) : string := String.string_of_list_ascii l.

(** Normalisation of one slice bound: a negative bound counts from the
    end, and the result is clamped to [0 .. len]. *)
Definition clamp (n i : Z) : nat :=
  Z.to_nat (Z.min n (Z.max 0 (if i <? 0 then n + i else i))).

(** [s[i:j]] with step 1. *)
Definition slice (s : string) (i j : Z) : string :=
  let start := clamp (len s) i in
  let stop := clamp (len s) j in
  text (take (stop - start)%nat (drop start (chars s))).

(** [s[i:]]. *)
Definition slice_from (s : string) (i : Z) : string :=
  text (drop (clamp (len s) i) (chars s)).

(** [sub in s]. *)
Fixpoint contains (sub s : string) : bool :=
  String.prefix sub s ||
  match s with
  | EmptyString => false
  | String _ s' => contains sub s'
  end.

(** [s.rfind(c)] for a single character, [-1] when absent. *)
Fixpoint rfind_char (c : ascii) (s : string) : Z :=
  match s with
  | EmptyString => -1
  | String a s' =>
      let r := rfind_char c s' in
      if 0 <=? r then r + 1
      else if Ascii.eqb a c then 0 else -1
  end.

(** *** [int(s)] in base 10

    Leading and trailing white space is skipped, one sign is allowed,
    and single underscores may separate digits. *)

Definition is_space (c : ascii) : bool :=
  let n := nat_of_ascii c in
  ((9 <=? n) && (n <=? 13) || (n =? 32) || (n =? 133) || (n =? 160))%nat.

Definition digit_value (c : ascii) : option Z :=
  let n := nat_of_ascii c in
  if ((48 <=? n) && (n <=? 57))%nat then Some (Z.of_nat n - 48) else None.

Fixpoint lstrip (l : list ascii) : list ascii :=
  match l with
  | c :: l' => if is_space c then lstrip l' else l
  | [] => []
  end.

(** Digits after the first one.  [after_us] records that the previous
    character was an underscore, which must be followed by a digit. *)
Fixpoint digits_tail (after_us : bool) (acc : Z) (l : list ascii) : option Z :=
  match l with
  | [] => if after_us then None else Some acc
  | c :: l' =>
      match digit_value c with
      | Some d => digits_tail false (acc * 10 + d) l'
      | None =>
          if after_us then None
          else if Ascii.eqb c "_" then digits_tail true acc l'
          else if forallb is_space l then Some acc
          else None
      end
  end.

Definition digits (l : list ascii) : option Z :=
  match l with
  | c :: l' =>
      match digit_value c with
      | Some d => digits_tail false d l'
      | None => None
      end
  | [] => None
  end.

Definition int (s : string) : option Z :=
  match lstrip (chars s) with
  | c :: l' =>
      if Ascii.eqb c "-" then Z.opp <$> digits l'
      else if Ascii.eqb c "+" then digits l'
      else digits (c :: l')
  | [] => None
  end.

(** A non-empty string of the digits 0 to 9. *)
Definition all_digits (s : string) : bool :=
  negb (String.length s =? 0)%nat &&
  forallb (fun c => bool_decide (is_Some (digit_value c))) (chars s).

(** *** [f"{n:03}"]: sign-aware zero padding to a minimum width of 3 *)

Definition zfill (width : nat) (s : string) : string :=
  text (replicate (width - String.length s)%nat "0"%char) +:+ s.

Definition format_03 (n : Z) : string :=
  if n <? 0 then "-" +:+ zfill 2 (pretty (- n)) else zfill 3 (pretty n).

(** *** [s.strip()]

    The white space of [str.isspace], which [strip] removes at both
    ends. *)

Definition isspace (c : ascii) : bool :=
  let n := nat_of_ascii c in
  ((9 <=? n) && (n <=? 13) || (28 <=? n) && (n <=? 32)
   || (n =? 133) || (n =? 160))%nat.

Fixpoint lstrip_space (l : list ascii) : list ascii :=
  match l with
  | c :: l' => if isspace c then lstrip_space l' else l
  | [] => []
  end.

Definition strip (s : string) : string :=
  text (rev (lstrip_space (rev (lstrip_space (chars s))))).

End Py.

(** ** [fnmatch] patterns

    [Path.glob] compiles one pattern component with [fnmatch.translate]
    and keeps the directory entries whose whole name matches.  The
    translation is modelled as a token list rather than a regular
    expression: a star is any run of characters, a question mark is one
    character, a bracket expression is one character of the listed set
    (or, after an exclamation mark, one character outside it), and [a-b]
    inside the brackets is an inclusive code-point range.  An opening
    bracket without a closing one is a literal.  Matching is case
    sensitive (POSIX).  CPython's rewriting of a bracket expression whose
    ranges are empty is not reproduced. *)

Module Fnmatch.

Inductive class_item :=
| One (c : ascii)
| Range (lo hi : ascii).

Inductive token :=
| Star
| AnyChar
| Lit (c : ascii)
| Class (negated : bool) (items : list class_item).

Fixpoint class_items (l : list ascii) : list class_item :=
  match l with
  | c :: l' =>
      match l' with
      | h :: d :: l'' =>
          if Ascii.eqb h "-" then Range c d :: class_items l''
          else One c :: class_items l'
      | _ => One c :: class_items l'
      end
  | [] => []
  end.

(** Splits [l] at its first closing bracket. *)
Fixpoint until_close (l : list ascii) : option (list ascii * list ascii) :=
  match l with
  | [] => None
  | c :: l' =>
      if Ascii.eqb c "]" then Some ([], l')
      else '(body, rest) ← until_close l'; Some (c :: body, rest)
  end.

(** The text after an opening bracket: the class (negation flag and
    members) and what follows the closing bracket.  An exclamation mark
    right after the opening bracket negates, and a closing bracket in first
    position is a member. *)
Definition bracket (l : list ascii) : option (bool * list ascii * list ascii) :=
  let '(neg, l1) :=
    match l with
    | c :: r => if Ascii.eqb c "!" then (true, r) else (false, l)
    | [] => (false, l)
    end in
  match l1 with
  | c :: r =>
      if Ascii.eqb c "]"
      then '(body, rest) ← until_close r; Some (neg, c :: body, rest)
      else '(body, rest) ← until_close l1; Some (neg, body, rest)
  | [] => None
  end.

(** [fuel] bounds the number of pattern characters still to read;
    [prev_star] compresses consecutive stars into one. *)
Fixpoint translate_go (fuel : nat) (prev_star : bool) (l : list ascii) : list token :=
  match fuel, l with
  | S fuel', c :: l' =>
      if Ascii.eqb c "*" then
        if prev_star then translate_go fuel' true l'
        else Star :: translate_go fuel' true l'
      else if Ascii.eqb c "?" then AnyChar :: translate_go fuel' false l'
      else if Ascii.eqb c "[" then
        match bracket l' with
        | Some (neg, body, rest) =>
            Class neg (class_items body) :: translate_go fuel' false rest
        | None => Lit c :: translate_go fuel' false l'
        end
      else Lit c :: translate_go fuel' false l'
  | _, _ => []
  end.

Definition translate (pat : string) : list token :=
  translate_go (String.length pat) false (Py.chars pat).

Definition in_item (x : ascii) (it : class_item) : bool :=
  match it with
  | One c => Ascii.eqb x c
  | Range lo hi => ((nat_of_ascii lo <=? nat_of_ascii x)
                    && (nat_of_ascii x <=? nat_of_ascii hi))%nat
  end.

(** One-character tokens. *)
Definition accepts (t : token) (x : ascii) : bool :=
  match t with
  | Star | AnyChar => true
  | Lit c => Ascii.eqb x c
  | Class neg items => xorb neg (existsb (in_item x) items)
  end.

(** Whole-string match of a token list. *)
Fixpoint matches (p : list token) (s : list ascii) : bool :=
  match p with
  | [] => match s with [] => true | _ => false end
  | Star :: p' =>
      (fix star (s : list ascii) : bool :=
         matches p' s || match s with [] => false | _ :: s' => star s' end) s
  | t :: p' =>
      match s with
      | [] => false
      | x :: s' => accepts t x && matches p' s'
      end
  end.

Definition fnmatch (name pat : string) : bool :=
  matches (translate pat) (Py.chars name).

End Fnmatch.

(** ** [pathlib] *)

Module Pathlib.

(** An absolute, resolved path: its components below the root. *)
Definition path := list string.

(** [p.name]: the final component, empty for the root. *)
Definition name (p : path) : string := default EmptyString (last p).

(** [p.suffix]: the final component from its last dot on, unless that
    dot is its first or its last character. *)
Definition suffix (p : path) : string :=
  let n := name p in
  let i := Py.rfind_char "." n in
  if (0 <? i) && (i <? Py.len n - 1) then Py.slice_from n i else EmptyString.

(** [p.parent]; the root is its own parent. *)
Definition parent (p : path) : path := removelast p.

(** [p / child] for a single component. *)
Definition joinpath (p : path) (child : string) : path := p ++ [child].

(** [p.relative_to(other)]: the components of [p] below [other], or
    nothing (a [ValueError] in Python) when [p] is not below [other]. *)
Definition relative_to (p other : path) : option (list string) :=
  if decide (other `prefix_of` p) then Some (drop (length other) p) else None.

(** [str(p)] for an absolute path. *)
Definition str (p : path) : string := "/" +:+ String.concat "/" p.

(** [str] of a relative path, as produced by [relative_to]. *)
Definition rel_str (parts : list string) : string :=
  match parts with
  | [] => "."
  | _ => String.concat "/" parts
  end.

End Pathlib.

(** ** Console markup ([rich.markup])

    [console.print] hands its argument to [rich.markup.render], which
    raises [MarkupError] when a closing tag has nothing to close.  The
    model follows [render] and [_parse] of rich 12 and 13 as far as that
    error is concerned: the tags are found as the regular expression
    [RE_TAGS] finds them, and they are pushed and popped as [render]
    does.  The text between the tags, the styles and the emoji codes play
    no part in whether [render] returns, and are left out. *)

Module Rich.

(** Two functions that [render] calls are taken as they are:
    [Style.normalize], which brings a style definition into its normal
    form, and the evaluation of the parameters of a handler tag
    ([ast.literal_eval]), which either succeeds or makes [render]
    raise. *)
Record library := {
  normalize : string -> string;
  meta_ok : string -> bool
}.

(** [Tag]: the text before the first equals sign, and what follows
    it. *)
Record Tag := {
  name : string;
  parameters : option string
}.

(** The first character of a tag: the class [a-z#/@]. *)
Definition tag_start (c : ascii) : bool :=
  let n := nat_of_ascii c in
  ((97 <=? n) && (n <=? 122) || (n =? 35) || (n =? 47) || (n =? 64))%nat.

(** The lazy run of characters other than an opening bracket, up to the
    first closing bracket. *)
Fixpoint tag_rest (l : list ascii) : option (list ascii) :=
  match l with
  | [] => None
  | c :: l' =>
      if Ascii.eqb c "]" then Some []
      else if Ascii.eqb c "[" then None
      else cons c <$> tag_rest l'
  end.

(** The tag text after an opening bracket, when [RE_TAGS] matches
    there. *)
Definition tag_text (l : list ascii) : option (list ascii) :=
  match l with
  | c :: l' => if tag_start c then cons c <$> tag_rest l' else None
  | [] => None
  end.

(** [tag_text.partition("=")]. *)
Fixpoint partition_equals (l : list ascii) : list ascii * option (list ascii) :=
  match l with
  | [] => ([], None)
  | c :: l' =>
      if Ascii.eqb c "=" then ([], Some l')
      else let '(text, parameters) := partition_equals l' in (c :: text, parameters)
  end.

Definition make_tag (tag_text : list ascii) : Tag :=
  let '(text, parameters) := partition_equals tag_text in
  {| name := Py.text text; parameters := Py.text <$> parameters |}.

(** [_parse], keeping the tags only.  [escapes] counts the backslashes
    that immediately precede the current character, [skip] the
    characters of a matched tag that are still to be passed.  A tag
    after an odd number of backslashes is escaped and stays text. *)
Fixpoint parse_from (escapes skip : nat) (l : list ascii) : list Tag :=
  match l with
  | [] => []
  | c :: l' =>
      match skip with
      | S n => parse_from 0 n l'
      | O =>
          if Ascii.eqb c "\" then parse_from (S escapes) 0 l'
          else if Ascii.eqb c "[" then
            match tag_text l' with
            | Some t =>
                if Nat.even escapes
                then make_tag t :: parse_from 0 (S (length t)) l'
                else parse_from 0 (S (length t)) l'
            | None => parse_from 0 0 l'
            end
          else parse_from 0 0 l'
      end
  end.

Definition parse (markup : string) : list Tag :=
  parse_from 0 0 (Py.chars markup).

Definition startswith (c : ascii) (s : string) : bool :=
  match s with
  | String a _ => Ascii.eqb a c
  | EmptyString => false
  end.

(** [pop_style]: the most recently opened tag with the given name is
    taken off the stack (whose head is the most recent tag). *)
Fixpoint pop_style (style_name : string) (style_stack : list Tag)
  : option (Tag * list Tag) :=
  match style_stack with
  | [] => None
  | tag :: below =>
      if String.eqb (name tag) style_name then Some (tag, below)
      else
        match pop_style style_name below with
        | Some (found, below') => Some (found, tag :: below')
        | None => None
        end
  end.

(** The loop of [render] over the tags: [true] when it runs to its end,
    [false] when it raises [MarkupError]. *)
Fixpoint render_tags (lib : library) (style_stack tags : list Tag) : bool :=
  match tags with
  | [] => true
  | tag :: rest =>
      if startswith "/" (name tag) then
        let style_name := Py.strip (Py.slice_from (name tag) 1) in
        let popped :=
          match style_name with
          | String _ _ => pop_style (normalize lib style_name) style_stack
          | EmptyString =>
              match style_stack with
              | open_tag :: below => Some (open_tag, below)
              | [] => None
              end
          end in
        match popped with
        | None => false
        | Some (open_tag, below) =>
            if startswith "@" (name open_tag) then
              match parameters open_tag with
              | Some (String _ _ as p) =>
                  if meta_ok lib p then render_tags lib below rest else false
              | _ => render_tags lib below rest
              end
            else render_tags lib below rest
        end
      else
        render_tags lib
          ({| name := normalize lib (name tag); parameters := parameters tag |}
             :: style_stack) rest
  end.

(** [render(markup)]: [true] when a [Text] is returned, [false] when
    [MarkupError] is raised. *)
Definition render (lib : library) (markup : string) : bool :=
  if Py.contains "[" markup then render_tags lib [] (parse markup) else true.

End Rich.

Arguments Rich.render : simpl never.

(** ** The world of the workflow *)

Import Pathlib.

(** The exceptions that can leave [sign]. *)
Inductive exn :=
| ValueError_relative_to                 (* [relative_to]: not a subpath *)
| ValueError_pattern                     (* [glob]: two stars inside a component *)
| ValueError_int (literal : string)      (* [int]: invalid literal *)
| NotImplementedError
| MarkupError                            (* [console.print]: bad markup *)
| CalledProcessError (returncode : Z) (cmd : list string)
| AssertionError.

(** What [subprocess.run] hands back. *)
Record CompletedProcess := {
  returncode : Z;
  stdout : string;
  stderr : string
}.

(** Observable actions, in program order.  A [Run] records the argument
    vector, the finished process and the directory it left behind. *)
Inductive event :=
| Print (markup : string)
| Run (args : list string) (result : CompletedProcess) (after : gmap string string)
| OpenW (name : string).

Record state := {
  entries : gmap string string;
  log : list event
}.

Definition initial (dir : gmap string string) : state :=
  {| entries := dir; log := [] |}.

(** [ctx.obj] as filled in by the [cli] group callback. *)
Record context := {
  SIGS_DIR : path;
  OB_DIR : path
}.

Definition cli (signatures_dir : path) : context :=
  {| SIGS_DIR := signatures_dir; OB_DIR := parent signatures_dir |}.

(** [Path.glob] over the signature directory: the names of the entries
    that match, in directory order.  Two adjacent stars inside a pattern
    component are rejected. *)
Definition glob (dir : gmap string string) (pattern : string) : exn + list string :=
  if Py.contains "**" pattern then inl ValueError_pattern
  else inr (List.filter (fun n => Fnmatch.fnmatch n pattern) (map_to_list dir).*1).

(** The body of the version loop: [sig_number] becomes the largest
    parsed version plus one. *)
Fixpoint scan_versions (prev_versions : list string) (sig_number : Z) : exn + Z :=
  match prev_versions with
  | [] => inr sig_number
  | name :: rest =>
      let literal := Py.slice name (-7) (-4) in
      match Py.int literal with
      | None => inl (ValueError_int literal)
      | Some v =>
          let num := v + 1 in
          scan_versions rest (if num >? sig_number then num else sig_number)
      end
  end.

(** Lines 52 to 55: the next version for the document called [file_name]. *)
Definition next_version (dir : gmap string string) (file_name : string) : exn + Z :=
  match glob dir (file_name +:+ ".*.asc") with
  | inl e => inl e
  | inr prev_versions => scan_versions prev_versions 0
  end.

(** Line 56: the name of the signature artifact. *)
Definition output_name (file_name : string) (sig_number : Z) : string :=
  file_name +:+ "." +:+ Py.format_03 sig_number +:+ ".asc".

(** Argument vectors of the five external calls. *)
Definition cmd_clearsign (output_file file : path) : list string :=
  ["gpg"; "--output"; str output_file; "--clearsign"; str file].
Definition cmd_verify (output_file : path) : list string :=
  ["gpg"; "--verify"; str output_file].
Definition cmd_ts_query (file tsq_file : path) : list string :=
  ["openssl"; "ts"; "-query"; "-data"; str file; "-no_nonce"; "-sha512";
   "-cert"; "-out"; str tsq_file].
Definition cmd_curl (tsq_file tsr_file : path) : list string :=
  ["curl"; "--silent"; "-H"; "Content-Type: application/timestamp-query";
   "--data-binary"; "@" +:+ str tsq_file; "http://timestamp.apple.com/ts01";
   "--output"; str tsr_file].
Definition cmd_ts_verify (sigs_dir tsr_file tsq_file : path) : list string :=
  ["openssl"; "ts"; "-verify"; "-in"; str tsr_file; "-queryfile"; str tsq_file;
   "-CAfile"; str (joinpath sigs_dir "AppleIncRootCertificate.pem");
   "-untrusted"; str (joinpath sigs_dir "AppleTimestampCA.cer")].

(** The behaviour of the external programs. *)
Definition programs : Type :=
  list string -> gmap string string -> CompletedProcess * gmap string string.

Section Workflow.

Variable rich : Rich.library.
Variable exec : programs.

Definition M (A : Type) : Type := state -> (exn + A) * state.

Definition ret {A} (a : A) : M A := fun st => (inr a, st).
Definition raise {A} (e : exn) : M A := fun st => (inl e, st).
Definition bind {A B} (m : M A) (k : A -> M B) : M B :=
  fun st =>
    match m st with
    | (inl e, st') => (inl e, st')
    | (inr a, st') => k a st'
    end.

Notation "x <- m ;; k" := (bind m (fun x => k))
  (at level 100, m at next level, right associativity).
Notation "m ;; k" := (bind m (fun _ => k))
  (at level 100, right associativity).

(** [console.print(markup)]: the markup is rendered before anything is
    written. *)
Definition print (markup : string) : M unit :=
  fun st =>
    if Rich.render rich markup
    then (inr tt, {| entries := entries st; log := log st ++ [Print markup] |})
    else (inl MarkupError, st).

(** [subprocess.run(args, check=check)]. *)
Definition run (check : bool) (args : list string) : M CompletedProcess :=
  fun st =>
    let '(result, after) := exec args (entries st) in
    let st' := {| entries := after; log := log st ++ [Run args result after] |} in
    if check && negb (returncode result =? 0)
    then (inl (CalledProcessError (returncode result) args), st')
    else (inr result, st').

(** [open(SIGS_DIR / name, "w")]: the file exists and is empty. *)
Definition open_w (name : string) : M unit :=
  fun st => (inr tt, {| entries := <[name := EmptyString]> (entries st);
                        log := log st ++ [OpenW name] |}).

(** [(SIGS_DIR / name).exists()]. *)
Definition exists_ (name : string) : M bool :=
  fun st => (inr (bool_decide (is_Some (entries st !! name))), st).

(** [p.relative_to(base)] rendered with [str], as the f-strings do. *)
Definition relative_str (p base : path) : M string :=
  match relative_to p base with
  | Some parts => ret (rel_str parts)
  | None => raise ValueError_relative_to
  end.

Definition sign (ctx : context) (file : path) : M unit :=
  let ob_dir := OB_DIR ctx in
  rel <- relative_str file ob_dir ;;
  print ("Signing file [cyan]" +:+ rel +:+ "[/]") ;;
  if bool_decide (suffix file ∈ [".md"; ".txt"; ".rst"]) then
    print "Text file detected, so signing with [yellow]clearsign[/]." ;;
    (* Get signature filename by incrementing version if previous versions exist *)
    sig_number <- (fun st => (next_version (entries st) (name file), st)) ;;
    let output := output_name (name file) sig_number in
    let output_file := joinpath (SIGS_DIR ctx) output in
    (* Sign the file *)
    run true (cmd_clearsign output_file file) ;;
    rel <- relative_str output_file ob_dir ;;
    print ("Created signed file [magenta]" +:+ rel +:+ "[/]") ;;
    (* Verify the newly-created signature *)
    verify_result <- run true (cmd_verify output_file) ;;
    if Py.contains "Good signature" (stderr verify_result) then
      print ("[green]" +:+ stderr verify_result +:+ "[/]") ;;
      print EmptyString ;;
      (* Create timestamp query file *)
      let tsq := output +:+ ".apple.tsq" in
      let tsq_file := joinpath (SIGS_DIR ctx) tsq in
      run true (cmd_ts_query file tsq_file) ;;
      rel <- relative_str tsq_file ob_dir ;;
      print ("Created timestamp query file [yellow]" +:+ rel +:+ "[/]") ;;
      (* Send to server *)
      let tsr := output +:+ ".apple.tsr" in
      let tsr_file := joinpath (SIGS_DIR ctx) tsr in
      open_w tsr ;;
      run true (cmd_curl tsq_file tsr_file) ;;
      present <- exists_ tsr ;;
      if present then
        rel <- relative_str tsr_file ob_dir ;;
        print ("Received timestamp response [magenta]" +:+ rel +:+ "[/]") ;;
        verify_timestamp_result <-
          run false (cmd_ts_verify (SIGS_DIR ctx) tsr_file tsq_file) ;;
        if returncode verify_timestamp_result =? 0 then
          print ("[green]openssl ts: " +:+ stdout verify_timestamp_result)
        else
          print ("[red]" +:+ stdout verify_timestamp_result) ;;
          print ("[red]" +:+ stderr verify_timestamp_result)
      else raise AssertionError
    else
      print ("[red]" +:+ stderr verify_result +:+ "[/]") ;;
      ret tt
  else
    raise NotImplementedError.


(** [obsign --signatures-dir D sign FILE] on a signature directory with
    the given entries. *)
Definition main (signatures_dir file : path) (dir : gmap string string)
  : (exn + unit) * state :=
  sign (cli signatures_dir) file (initial dir).

End Workflow.

(** ** Vocabulary of the properties *)

(** The version that the scan reads off an entry name. *)
Definition version_of (entry : string) : option Z :=
  Py.int (Py.slice entry (-7) (-4)).

(** A document name without glob metacharacters. *)
Definition literal_name (s : string) : Prop :=
  Forall (fun c => c <> "*"%char /\ c <> "?"%char /\ c <> "["%char) (Py.chars s).

(** The directory that holds exactly the artifacts [d.000.asc] to
    [d.k.asc], named as [sign] names them. *)
Definition artifacts (d : string) (k : nat) : gmap string string :=
  list_to_map ((fun n => (output_name d (Z.of_nat n), "signed")) <$> seq 0 (S k)).

Definition is_print (e : event) : bool :=
  match e with
  | Print _ => true
  | _ => false
  end.

Definition commands (l : list event) : list (list string) :=
  omap (fun e => match e with Run args _ _ => Some args | _ => None end) l.

(** The calls made with [check=True]. *)
Definition checked_step (file : path) (args : list string) : Prop :=
  (exists o, args = cmd_clearsign o file) \/
  (exists o, args = cmd_verify o) \/
  (exists q, args = cmd_ts_query file q) \/
  (exists q r, args = cmd_curl q r).

(** The five external calls of a complete run, in program order, for
    the version [v]: sign, self-verify, create the timestamp query from
    the source document, submit it, verify the response. *)
Definition pipeline (sd file : path) (v : Z) : list (list string) :=
  let output := output_name (name file) v in
  let output_file := joinpath sd output in
  let tsq_file := joinpath sd (output +:+ ".apple.tsq") in
  let tsr_file := joinpath sd (output +:+ ".apple.tsr") in
  [cmd_clearsign output_file file;
   cmd_verify output_file;
   cmd_ts_query file tsq_file;
   cmd_curl tsq_file tsr_file;
   cmd_ts_verify sd tsr_file tsq_file].

(** Text without an opening square bracket: it cannot hold a markup
    tag. *)
Definition plain (s : string) : bool :=
  forallb (fun c => negb (Ascii.eqb c "[")) (Py.chars s).

(** The last three decimal digits of [m]. *)
Definition last3 (m : N) : string :=
  String (pretty_N_char ((m `div` 100) `mod` 10))
    (String (pretty_N_char ((m `div` 10) `mod` 10))
       (String (pretty_N_char (m `mod` 10)) EmptyString)).

(** ** Sample runs *)

Definition vault_sigs : path := ["vault"; "sigs"].
Definition notes_md : path := ["vault"; "notes.md"].

Definition proc (rc : Z) (out err : string) : CompletedProcess :=
  {| returncode := rc; stdout := out; stderr := err |}.

Definition good : CompletedProcess :=
  proc 0 "Verification: OK" "gpg: Good signature from K".

(** Every program succeeds and leaves the directory as it found it; in
    particular the HTTP client writes nothing. *)
Definition exec_ok : programs := fun _ d => (good, d).

(** The program called with [flag] exits with status 1. *)
Definition exec_failing (flag : string) : programs :=
  fun args d =>
    (if bool_decide (flag ∈ args) then proc 1 EmptyString "failure" else good, d).


(** The HTTP client removes the entry [name]. *)
Definition exec_dropping (name : string) : programs :=
  fun args d => (good, if bool_decide ("curl" ∈ args) then delete name d else d).


(** The library functions of the sample runs.  No message of a sample
    run closes a tag by name or opens a handler tag, so the choice does
    not bear on whether its messages render: the ones that render do so
    for every library ([render_plain_message]), and so do the ones that
    do not ([render_closing_twice]). *)
Definition plain_rich : Rich.library :=
  {| Rich.normalize := Py.strip; Rich.meta_ok := fun _ => true |}.

(** * Properties *)

(** ** The library models on small inputs *)

Example slice_examples :
  Py.slice "notes.md.042.asc" (-7) (-4) = "042" /\
  Py.slice "notes.md.1000.asc" (-7) (-4) = "000" /\
  Py.slice "ab.asc" (-7) (-4) = "ab".
Proof. repeat split; reflexivity. Qed.

Example int_examples :
  Py.int "042" = Some 42 /\ Py.int "+12" = Some 12 /\ Py.int " 7 " = Some 7 /\
  Py.int "1_2" = Some 12 /\ Py.int "-05" = Some (-5) /\ Py.int "bak" = None /\
  Py.int "1__" = None /\ Py.int "_12" = None /\ Py.int EmptyString = None /\
  Py.int "- 1" = None /\ Py.int "1 2" = None /\ Py.int "12_" = None.
Proof. repeat split; reflexivity. Qed.

Example format_examples :
  Py.format_03 0 = "000" /\ Py.format_03 7 = "007" /\ Py.format_03 999 = "999" /\
  Py.format_03 1000 = "1000" /\ Py.format_03 (-1) = "-01".
Proof. repeat split; vm_compute; reflexivity. Qed.

Example contains_examples :
  Py.contains "Good signature" "gpg: Good signature from X" = true /\
  Py.contains "Good signature" "gpg: BAD signature from X" = false /\
  Py.contains EmptyString EmptyString = true.
Proof. repeat split; reflexivity. Qed.

Example fnmatch_examples :
  Fnmatch.fnmatch "notes.md.000.asc" "notes.md.*.asc" = true /\
  Fnmatch.fnmatch "notes.md.000.asc.apple.tsq" "notes.md.*.asc" = false /\
  Fnmatch.fnmatch "notes.md.txt.005.asc" "notes.md.*.asc" = true /\
  Fnmatch.fnmatch "other.md.000.asc" "notes.md.*.asc" = false /\
  Fnmatch.fnmatch "notes.md..asc" "notes.md.*.asc" = true /\
  Fnmatch.fnmatch "notes.md.asc" "notes.md.*.asc" = false /\
  Fnmatch.fnmatch "a[1].md.000.asc" "a[1].md.*.asc" = false /\
  Fnmatch.fnmatch "a1.md.000.asc" "a[1].md.*.asc" = true /\
  Fnmatch.fnmatch "ab.md.000.asc" "a[!a-c].md.*.asc" = false /\
  Fnmatch.fnmatch "ad.md.000.asc" "a[!a-c].md.*.asc" = true /\
  Fnmatch.fnmatch "a[.md.000.asc" "a[.md.*.asc" = true /\
  Fnmatch.fnmatch "a].md.0.asc" "a[]].md.*.asc" = true.
Proof. repeat split; reflexivity. Qed.

Example suffix_examples :
  suffix ["vault"; "notes.md"] = ".md" /\
  suffix ["vault"; "notes.tar.txt"] = ".txt" /\
  suffix ["vault"; ".md"] = EmptyString /\
  suffix ["vault"; "notes."] = EmptyString /\
  suffix ["vault"; "notes"] = EmptyString /\
  suffix ["vault"; "notes.MD"] = ".MD" /\
  suffix [] = EmptyString.
Proof. repeat split; reflexivity. Qed.

Example relative_to_examples :
  relative_to ["vault"; "sub"; "a.md"] ["vault"] = Some ["sub"; "a.md"] /\
  relative_to ["elsewhere"; "a.md"] ["vault"] = None /\
  str ["vault"; "sigs"; "a.md.000.asc"] = "/vault/sigs/a.md.000.asc".
Proof. repeat split; vm_compute; reflexivity. Qed.

(** The end-to-end scenario of the specification: the first run on an
    empty directory signs into [notes.md.000.asc], the second into
    [notes.md.001.asc]. *)
Example first_and_second_run :
  commands (log (main plain_rich exec_ok vault_sigs notes_md ∅).2) !! 0%nat =
    Some (cmd_clearsign ["vault"; "sigs"; "notes.md.000.asc"] notes_md) /\
  commands (log (main plain_rich exec_ok vault_sigs notes_md
                   (artifacts "notes.md" 0)).2) !! 0%nat =
    Some (cmd_clearsign ["vault"; "sigs"; "notes.md.001.asc"] notes_md).
Proof. split; vm_compute; reflexivity. Qed.

(** ** Strings and paths *)

Lemma append_cons (a : ascii) (s t : string) :
  String a s +:+ t = String a (s +:+ t).
Proof. reflexivity. Qed.

Lemma append_assoc (s t u : string) : (s +:+ t) +:+ u = s +:+ (t +:+ u).
Proof.
  induction s as [|a s IH]; [reflexivity|].
  rewrite !append_cons. by rewrite IH.
Qed.

Lemma chars_app (s t : string) : Py.chars (s +:+ t) = Py.chars s ++ Py.chars t.
Proof.
  induction s as [|a s IH]; [reflexivity|].
  rewrite append_cons. unfold Py.chars in *. simpl. by rewrite IH.
Qed.

Lemma chars_length (s : string) : length (Py.chars s) = String.length s.
Proof.
  induction s as [|a s IH]; simpl; [done|]. unfold Py.chars in *. simpl. lia.
Qed.

Lemma text_chars (s : string) : Py.text (Py.chars s) = s.
Proof. apply String.string_of_list_ascii_of_string. Qed.

Lemma length_append (s t : string) :
  String.length (s +:+ t) = (String.length s + String.length t)%nat.
Proof. rewrite <- !chars_length, chars_app. apply length_app. Qed.

Lemma concat_snoc (sep : string) (l : list string) (x : string) :
  String.concat sep (l ++ [x]) =
  match l with
  | [] => x
  | _ => String.concat sep l +:+ sep +:+ x
  end.
Proof.
  induction l as [|a l IH]; [reflexivity|].
  destruct l as [|b l]; [reflexivity|].
  change (String.concat sep ((a :: b :: l) ++ [x]))
    with (a +:+ sep +:+ String.concat sep ((b :: l) ++ [x])).
  rewrite IH.
  change (String.concat sep (a :: b :: l))
    with (a +:+ sep +:+ String.concat sep (b :: l)).
  by rewrite !append_assoc.
Qed.

(** Two children of one directory with the same rendering are equal. *)
Lemma str_joinpath_inj (d : path) (x y : string) :
  str (joinpath d x) = str (joinpath d y) -> x = y.
Proof.
  unfold str, joinpath. rewrite !concat_snoc. intros H.
  apply (inj (String.append "/")) in H.
  destruct d; [done|].
  by do 2 apply String.app_inj in H.
Qed.

Lemma cmd_curl_inj (q q' d : path) (x y : string) :
  cmd_curl q (joinpath d x) = cmd_curl q' (joinpath d y) -> x = y.
Proof.
  intros H. apply (str_joinpath_inj d).
  apply (f_equal (fun l => default EmptyString (l !! 8%nat))) in H. exact H.
Qed.

(** The signature directory's children are below its parent, so the
    relative paths printed for the artifacts always exist. *)
Lemma relative_to_child (d : path) (x : string) :
  relative_to (joinpath d x) (parent d) =
  Some (drop (length (parent d)) (joinpath d x)).
Proof.
  unfold relative_to, joinpath, parent.
  rewrite decide_True; [done|].
  destruct (decide (d = [])) as [->|Hne]; [apply prefix_nil|].
  rewrite (app_removelast_last EmptyString Hne) at 2.
  rewrite <- app_assoc. by apply prefix_app_r.
Qed.

Lemma clamp_from_end (n k : Z) :
  0 < k <= n -> Py.clamp n (- k) = Z.to_nat (n - k).
Proof. intros H. unfold Py.clamp. destruct (Z.ltb_spec (- k) 0); lia. Qed.

(** The fixed slice reads the version segment when it has three
    characters. *)
Lemma slice_version (d v : string) :
  String.length v = 3%nat ->
  Py.slice (d +:+ "." +:+ v +:+ ".asc") (-7) (-4) = v.
Proof.
  intros Hv. unfold Py.slice, Py.len.
  rewrite !length_append, Hv, !chars_app. simpl String.length.
  change (-7) with (- (7)). change (-4) with (- (4)).
  rewrite !clamp_from_end by lia.
  replace (Z.to_nat _ - _)%nat with 3%nat by lia.
  replace (Z.to_nat _) with (length (Py.chars d ++ Py.chars "."))
    by (rewrite length_app, chars_length; simpl; lia).
  rewrite app_assoc, drop_app_length.
  rewrite take_app_length' by (by rewrite chars_length).
  apply text_chars.
Qed.

(** Versions up to 999 are written with exactly three digits and read
    back unchanged. *)
Lemma format_03_small (n : Z) :
  0 <= n <= 999 ->
  String.length (Py.format_03 n) = 3%nat /\
  Py.all_digits (Py.format_03 n) = true /\
  Py.int (Py.format_03 n) = Some n.
Proof.
  intros Hn.
  assert (Hall : forallb (fun n => (String.length (Py.format_03 n) =? 3)%nat
                          && Py.all_digits (Py.format_03 n)
                          && bool_decide (Py.int (Py.format_03 n) = Some n))
                   (seqZ 0 1000) = true) by (vm_compute; reflexivity).
  rewrite forallb_forall in Hall.
  assert (In n (seqZ 0 1000)) as Hin.
  { apply list_elem_of_In, elem_of_seqZ. lia. }
  apply Hall in Hin. apply andb_prop in Hin as [Hin H3].
  apply andb_prop in Hin as [H1 H2].
  split; [by apply Nat.eqb_eq|]. split; [done|].
  by apply bool_decide_eq_true_1 in H3.
Qed.

(** ** Patterns built from a literal document name *)

Lemma translate_go_literal (l rest : list ascii) (fuel : nat) :
  Forall (fun c => c <> "*"%char /\ c <> "?"%char /\ c <> "["%char) l ->
  Fnmatch.translate_go (length l + fuel) false (l ++ rest) =
  map Fnmatch.Lit l ++ Fnmatch.translate_go fuel false rest.
Proof.
  induction 1 as [|c l (Hs & Hq & Hb) _ IH]; [reflexivity|].
  simpl. rewrite !(proj2 (Ascii.eqb_neq _ _)) by done. by rewrite IH.
Qed.

Lemma matches_literal (l : list ascii) (p : list Fnmatch.token) (s : list ascii) :
  Fnmatch.matches (map Fnmatch.Lit l ++ p) (l ++ s) = Fnmatch.matches p s.
Proof.
  induction l as [|c l IH]; [reflexivity|].
  simpl. by rewrite Ascii.eqb_refl, IH.
Qed.

Lemma matches_star (p : list Fnmatch.token) (s : list ascii) :
  Fnmatch.matches (Fnmatch.Star :: p) s =
  Fnmatch.matches p s ||
  match s with
  | [] => false
  | _ :: s' => Fnmatch.matches (Fnmatch.Star :: p) s'
  end.
Proof. by destruct s. Qed.

Lemma matches_star_skip (p : list Fnmatch.token) (v s : list ascii) :
  Fnmatch.matches p s = true -> Fnmatch.matches (Fnmatch.Star :: p) (v ++ s) = true.
Proof.
  intros Hp. induction v as [|c v IH].
  - rewrite matches_star. simpl. by rewrite Hp.
  - change ((c :: v) ++ s) with (c :: (v ++ s)).
    rewrite matches_star, IH. apply orb_true_r.
Qed.

(** The pattern of a literal name matches each of its own artifacts,
    whatever stands in the version segment. *)
Lemma fnmatch_artifact (d v : string) :
  literal_name d ->
  Fnmatch.fnmatch (d +:+ "." +:+ v +:+ ".asc") (d +:+ ".*.asc") = true.
Proof.
  intros Hd. unfold Fnmatch.fnmatch, Fnmatch.translate.
  rewrite length_append, !chars_app, <- chars_length.
  rewrite translate_go_literal by done.
  rewrite matches_literal.
  change (Fnmatch.matches
            (Fnmatch.Lit "." :: Fnmatch.Star ::
               [Fnmatch.Lit "."; Fnmatch.Lit "a"; Fnmatch.Lit "s"; Fnmatch.Lit "c"])
            ("."%char :: Py.chars v ++ Py.chars ".asc") = true).
  etrans; [apply (matches_literal ["."%char])|].
  by apply matches_star_skip.
Qed.

Lemma matches_literal_inv (l : list ascii) (p : list Fnmatch.token) (s : list ascii) :
  Fnmatch.matches (map Fnmatch.Lit l ++ p) s = true ->
  exists s', s = l ++ s' /\ Fnmatch.matches p s' = true.
Proof.
  revert s. induction l as [|c l IH]; intros s; [by exists s|].
  simpl. destruct s as [|x s]; [done|].
  intros [Hx Hs]%andb_prop. apply Ascii.eqb_eq in Hx as ->.
  destruct (IH s Hs) as (s' & -> & Hp). by exists s'.
Qed.

Lemma matches_star_inv (p : list Fnmatch.token) (s : list ascii) :
  Fnmatch.matches (Fnmatch.Star :: p) s = true ->
  exists v s', s = v ++ s' /\ Fnmatch.matches p s' = true.
Proof.
  induction s as [|x s IH]; rewrite matches_star.
  - rewrite orb_false_r. intros H. by exists [], [].
  - intros [H|H]%orb_prop; [by exists [], (x :: s)|].
    destruct (IH H) as (v & s' & -> & Hp). by exists (x :: v), s'.
Qed.

Lemma chars_text (l : list ascii) : Py.chars (Py.text l) = l.
Proof. apply String.list_ascii_of_string_of_list_ascii. Qed.

Lemma chars_inj (s t : string) : Py.chars s = Py.chars t -> s = t.
Proof. intros H. by rewrite <- (text_chars s), <- (text_chars t), H. Qed.

(** X4.  The pattern of a literal name selects exactly the names that
    start with the document name and a dot and end in [.asc]. *)
Lemma fnmatch_literal_iff (d x : string) :
  literal_name d ->
  Fnmatch.fnmatch x (d +:+ ".*.asc") = true <->
  exists v, x = d +:+ "." +:+ v +:+ ".asc".
Proof.
  intros Hd. split; [|intros [v ->]; by apply fnmatch_artifact].
  unfold Fnmatch.fnmatch, Fnmatch.translate.
  rewrite length_append, !chars_app, <- chars_length.
  rewrite translate_go_literal by done.
  intros (s1 & Hx & H1)%matches_literal_inv.
  apply (matches_literal_inv ["."%char]) in H1 as (s2 & -> & H2).
  apply matches_star_inv in H2 as (v & s3 & -> & H3).
  apply (matches_literal_inv (Py.chars ".asc") []) in H3 as (s4 & -> & H4).
  destruct s4; [|done].
  exists (Py.text v). apply chars_inj.
  by rewrite Hx, !chars_app, chars_text, app_nil_r.
Qed.

Lemma literal_no_double_star (d : string) :
  literal_name d -> Py.contains "**" (d +:+ ".*.asc") = false.
Proof.
  unfold literal_name. induction d as [|c d IH]; [reflexivity|].
  intros Hd. apply Forall_cons in Hd as [(Hs & _) Hd].
  rewrite append_cons. cbn [Py.contains String.prefix].
  destruct (ascii_dec "*" c) as [<-|_]; [done|].
  by apply IH.
Qed.

(** ** The version scan *)

Lemma glob_spec (dir : gmap string string) (pattern : string)
    (names : list string) (x : string) :
  glob dir pattern = inr names ->
  In x names <-> is_Some (dir !! x) /\ Fnmatch.fnmatch x pattern = true.
Proof.
  unfold glob. destruct (Py.contains _ _); [done|]. intros [= <-].
  rewrite filter_In, <- list_elem_of_In, list_elem_of_fmap.
  split.
  - intros [([y c] & -> & Hy%elem_of_map_to_list) Hm]. eauto.
  - intros [[c Hc] Hm]. split; [|done]. exists (x, c). split; [done|].
    by apply elem_of_map_to_list.
Qed.

(** When every scanned entry parses, the result is the largest parsed
    version plus one, whatever the order of the directory. *)
Lemma scan_versions_bounds (l : list string) (acc b : Z) :
  (forall x, In x l -> exists n, version_of x = Some n /\ n + 1 <= b) ->
  acc <= b ->
  exists v, scan_versions l acc = inr v /\ acc <= v <= b /\
    forall x n, In x l -> version_of x = Some n -> n + 1 <= v.
Proof.
  revert acc. induction l as [|x l IH]; intros acc Hl Hacc.
  - exists acc. simpl. repeat split; [lia..|]. intros ? ? [].
  - destruct (Hl x) as (n & Hn & Hb); [by left|].
    simpl. unfold version_of in Hn. rewrite Hn.
    destruct (IH (if n + 1 >? acc then n + 1 else acc)) as (v & Hv & Hbound & Hmax).
    { intros y Hy. apply Hl. by right. }
    { destruct (Z.gtb_spec (n + 1) acc); lia. }
    exists v. split; [done|]. split.
    { destruct (Z.gtb_spec (n + 1) acc); lia. }
    intros y m [<-|Hy] Hm.
    + unfold version_of in Hm. rewrite Hn in Hm. injection Hm as <-.
      destruct (Z.gtb_spec (n + 1) acc); lia.
    + by eapply Hmax.
Qed.




(** X1.  The behaviour the specification describes, on the inputs where
    the code has it: a document name without glob metacharacters, versions
    of at most three digits, and a directory whose entries matching the
    pattern are exactly the artifacts [d.000.asc] to [d.k.asc]. *)
Theorem next_version_spec (dir : gmap string string) (d : string) (k : Z) :
  literal_name d ->
  0 <= k <= 999 ->
  (forall n, 0 <= n <= k -> is_Some (dir !! output_name d n)) ->
  (forall x, is_Some (dir !! x) -> Fnmatch.fnmatch x (d +:+ ".*.asc") = true ->
             exists n, 0 <= n <= k /\ x = output_name d n) ->
  next_version dir d = inr (k + 1).
Proof.
  intros Hd Hk Hpresent Honly. unfold next_version.
  destruct (glob dir (d +:+ ".*.asc")) as [e|names] eqn:Hglob.
  { unfold glob in Hglob. by rewrite literal_no_double_star in Hglob. }
  assert (Hver : forall n, 0 <= n <= k -> version_of (output_name d n) = Some n).
  { intros n Hn. unfold version_of, output_name.
    destruct (format_03_small n) as (Hlen & _ & Hint); [lia|].
    by rewrite slice_version. }
  destruct (scan_versions_bounds names 0 (k + 1)) as (v & -> & Hb & Hmax); [|lia|].
  { intros x Hx. apply (glob_spec _ _ _ _ Hglob) in Hx as [Hx Hm].
    destruct (Honly x Hx Hm) as (n & Hn & ->). exists n. split; [by apply Hver|lia]. }
  f_equal. assert (k + 1 <= v); [|lia].
  apply (Hmax (output_name d k)); [|apply Hver; lia].
  apply (glob_spec _ _ _ _ Hglob). split; [apply Hpresent; lia|].
  by apply fnmatch_artifact.
Qed.

(** X2.  With no matching entry the version is 0. *)
Theorem next_version_fresh (dir : gmap string string) (d : string) :
  Py.contains "**" (d +:+ ".*.asc") = false ->
  (forall x, is_Some (dir !! x) -> Fnmatch.fnmatch x (d +:+ ".*.asc") = false) ->
  next_version dir d = inr 0.
Proof.
  intros Hpat Hnone. unfold next_version.
  destruct (glob dir (d +:+ ".*.asc")) as [e|names] eqn:Hglob.
  { unfold glob in Hglob. by rewrite Hpat in Hglob. }
  destruct names as [|x names]; [done|].
  assert (In x (x :: names)) as Hx by (by left).
  apply (glob_spec _ _ _ _ Hglob) in Hx as [Hx Hm].
  by rewrite Hnone in Hm.
Qed.

Lemma scan_versions_inv (l : list string) (acc v : Z) :
  scan_versions l acc = inr v ->
  acc <= v /\
  (forall x, In x l -> exists n, version_of x = Some n /\ n + 1 <= v) /\
  (v = acc \/ exists x, In x l /\ version_of x = Some (v - 1)).
Proof.
  revert acc. induction l as [|y l IH]; intros acc; simpl.
  - intros [= <-]. split; [lia|]. split; [intros ? []|by left].
  - destruct (Py.int (Py.slice y (-7) (-4))) as [n|] eqn:Hy; [|done].
    intros (Hacc & Hall & Hwit)%IH.
    destruct (Z.gtb_spec (n + 1) acc) as [Hgt|Hle].
    + split; [lia|]. split.
      * intros x [<-|Hx]; [exists n; split; [done|lia]|by apply Hall].
      * right. destruct Hwit as [->|(x & Hx & Hv)].
        -- exists y. split; [by left|]. unfold version_of. rewrite Hy. f_equal. lia.
        -- exists x. split; [by right|done].
    + split; [lia|]. split.
      * intros x [<-|Hx]; [exists n; split; [done|lia]|by apply Hall].
      * destruct Hwit as [->|(x & Hx & Hv)]; [by left|].
        right. exists x. split; [by right|done].
Qed.

(** The result of a successful scan depends only on which entries are
    scanned, not on their order. *)
Lemma scan_versions_same_entries (l l' : list string) (acc v : Z) :
  (forall x, In x l' <-> In x l) ->
  scan_versions l acc = inr v -> scan_versions l' acc = inr v.
Proof.
  intros Hsame (Hacc & Hall & Hwit)%scan_versions_inv.
  destruct (scan_versions_bounds l' acc v) as (v' & -> & Hb & Hmax); [|done|].
  { intros x Hx. by apply Hall, Hsame. }
  f_equal. destruct Hwit as [->|(x & Hx & Hv)]; [lia|].
  apply Hsame in Hx. specialize (Hmax x _ Hx Hv). lia.
Qed.

(** X3.  An entry that the pattern does not select has no influence on
    the version. *)
Theorem unselected_entry_is_ignored (dir : gmap string string)
    (d x c : string) (v : Z) :
  Fnmatch.fnmatch x (d +:+ ".*.asc") = false ->
  next_version dir d = inr v ->
  next_version (<[x := c]> dir) d = inr v.
Proof.
  intros Hx. unfold next_version.
  destruct (glob dir _) as [e|names] eqn:Hg; [done|].
  destruct (glob (<[x := c]> dir) _) as [e|names'] eqn:Hg'.
  { unfold glob in Hg, Hg'. by destruct (Py.contains _ _). }
  apply scan_versions_same_entries. intros y.
  rewrite (glob_spec _ _ _ _ Hg), (glob_spec _ _ _ _ Hg').
  destruct (decide (x = y)) as [->|Hne].
  - rewrite Hx. split; intros [_ H]; discriminate H.
  - by rewrite lookup_insert_ne.
Qed.

(** ** Running [sign] symbolically *)

Lemma Run_inj (a a' : list string) (r r' : CompletedProcess)
    (g g' : gmap string string) :
  Run a r g = Run a' r' g' -> a = a' /\ r = r' /\ g = g'.
Proof. intros H. by injection H. Qed.

(** The two messages without interpolated text always render. *)
Lemma render_nothing (lib : Rich.library) : Rich.render lib EmptyString = true.
Proof. reflexivity. Qed.

Lemma render_text_file_detected (lib : Rich.library) :
  Rich.render lib "Text file detected, so signing with [yellow]clearsign[/]." = true.
Proof.
  unfold Rich.render.
  replace (Py.contains "[" _) with true by (vm_compute; reflexivity).
  replace (Rich.parse _)
    with [{| Rich.name := "yellow"; Rich.parameters := None |};
          {| Rich.name := "/"; Rich.parameters := None |}]
    by (vm_compute; reflexivity).
  cbn [Rich.render_tags Rich.name Rich.parameters].
  change (Rich.startswith "/" "yellow") with false.
  change (Rich.startswith "/" "/") with true.
  change (Py.strip (Py.slice_from "/" 1)) with EmptyString.
  cbv iota beta. cbn [Rich.name Rich.parameters].
  by destruct (Rich.startswith _ _).
Qed.

(** One case split per branching point of [sign]. *)
Ltac exec_step H :=
  match type of H with
  | context [next_version ?a ?d] =>
      let E := fresh "Hver" in destruct (next_version a d) eqn:E; cbn in H
  | context [relative_to (joinpath ?d ?x) (parent ?d)] =>
      rewrite (relative_to_child d x) in H; cbn in H
  | context [relative_to ?a ?d] =>
      let E := fresh "Hrel" in destruct (relative_to a d) eqn:E; cbn in H
  | context [?exec ?a ?d] =>
      match type of exec with
      | programs =>
          let E := fresh "Hexec" in
          destruct (exec a d) as [[?rc ?out ?err] ?after] eqn:E; cbn in H
      end
  | context [if ?b then _ else _] =>
      let E := fresh "Hif" in destruct b eqn:E; cbn in H
  end.

(** All runs of [main], one goal per path through [sign]. *)
Ltac run_sign H :=
  unfold main, sign, bind, relative_str, print, run, open_w, exists_, raise, ret,
    initial in H;
  rewrite ?render_text_file_detected, ?render_nothing in H;
  cbn [entries log SIGS_DIR OB_DIR cli] in H;
  repeat exec_step H;
  simplify_eq.

Ltac rc_facts :=
  repeat match goal with
    | H : negb (_ =? 0) = false |- _ => apply negb_false_iff, Z.eqb_eq in H
    | H : negb (_ =? 0) = true |- _ => apply negb_true_iff, Z.eqb_neq in H
    | H : (_ =? 0) = true |- _ => apply Z.eqb_eq in H
    | H : (_ =? 0) = false |- _ => apply Z.eqb_neq in H
    end.

(** One goal per [Run] event of the log that [H] may point at; [H]
    becomes the equation between the two argument vectors. *)
Ltac log_cases H :=
  cbn in H;
  repeat (destruct H as [H|H];
          [first [discriminate H | apply Run_inj in H as (H & <- & <-)];
           try (exfalso;
                unfold cmd_clearsign, cmd_verify, cmd_ts_query, cmd_curl,
                  cmd_ts_verify in H;
                discriminate H);
           try subst
          | ]);
  try contradiction H.

Ltac split_last :=
  match goal with
  | |- exists pre, ?l = pre ++ [?e] /\ _ =>
      exists (removelast l); split; [reflexivity|]
  | |- exists pre, ?l = pre ++ [?e] =>
      exists (removelast l); reflexivity
  end.

Ltac not_checked H :=
  exfalso;
  unfold checked_step, cmd_clearsign, cmd_verify, cmd_ts_query, cmd_curl,
    cmd_ts_verify in H;
  destruct H as [[? H]|[[? H]|[[? H]|[? [? H]]]]]; discriminate H.

(** The response file survives the HTTP client when the client removes
    nothing. *)
Ltac kept :=
  match goal with
  | Hk : forall q r d n, is_Some (d !! n) -> _,
    He : ?exec (cmd_curl ?q ?r) (<[?n := EmptyString]> ?d) = (_, ?a) |- _ =>
      assert (is_Some (a !! n))
        by (pose proof (Hk q r (<[n := EmptyString]> d) n) as K; rewrite He in K;
            apply K; rewrite lookup_insert_eq; eauto)
  end.

(** Membership of an event in the log of a sample run. *)
Ltac in_log := vm_compute; repeat (first [left; reflexivity | right]).

(** ** Version resolution *)

(** C1 (code defect).  The specification wants the next version to be
    [k + 1] for every document name and every set of artifacts
    [D.000.asc] to [D.k.asc].  The scan reads the version with the fixed
    slice [name[-7:-4]] and selects entries with an unescaped glob
    pattern.  With the artifacts 000 to 1000 in place the slice reads 000
    from [notes.md.1000.asc], the next version is 1000 again (not 1001),
    and [gpg] is told to write the existing artifact.  For the document [notes[1].md] the
    brackets are read as a character class, its own artifact is not
    selected, and the next version is 0 (not 1). *)
Theorem version_scan_defects :
  output_name "notes.md" 1000 = "notes.md.1000.asc" /\
  next_version (artifacts "notes.md" 1000) "notes.md" = inr 1000 /\
  commands (log (main plain_rich exec_ok vault_sigs notes_md
                   (artifacts "notes.md" 1000)).2)
    !! 0%nat
    = Some (cmd_clearsign ["vault"; "sigs"; "notes.md.1000.asc"] notes_md) /\
  artifacts "notes[1].md" 0 !! "notes[1].md.000.asc" = Some "signed" /\
  next_version (artifacts "notes[1].md" 0) "notes[1].md" = inr 0.
Proof. repeat split; vm_compute; reflexivity. Qed.

(** C2 (code defect).  Artifacts of another document must not influence
    the version of [D].  The pattern [D.*.asc] also selects the artifacts
    of every document whose name extends [D] by a dot and more: with only
    [notes.md.000.asc] present the next version of [notes.md] is 1, and
    adding the artifact [notes.md.txt.005.asc] of the document
    [notes.md.txt] raises it to 6. *)
Theorem other_document_raises_version :
  output_name "notes.md.txt" 5 = "notes.md.txt.005.asc" /\
  next_version (artifacts "notes.md" 0) "notes.md" = inr 1 /\
  next_version (<[output_name "notes.md.txt" 5 := "signed"]> (artifacts "notes.md" 0))
    "notes.md" = inr 6.
Proof. repeat split; vm_compute; reflexivity. Qed.

(** C7 (code defect).  The version segment of the artifact name must
    have exactly three digits for every reachable version.  The format
    [03] is a minimum width: with [notes.md.999.asc] present the next
    version is 1000 and the artifact is named [notes.md.1000.asc], a
    four-digit segment, which the fixed slice of the scan then misreads
    as 000. *)
Theorem version_segment_grows :
  next_version {[ "notes.md.999.asc" := "signed" ]} "notes.md" = inr 1000 /\
  output_name "notes.md" 1000 = "notes.md.1000.asc" /\
  Py.format_03 1000 = "1000" /\
  version_of (output_name "notes.md" 1000) = Some 0.
Proof. repeat split; vm_compute; reflexivity. Qed.




(** ** Dispatch on the extension *)




(** ** Fail-fast steps *)

(** C8.  Whenever one of the calls made with [check=True] (the signer,
    the self-verification, the query creation, the submission) exits
    non-zero, [sign] raises the process error for exactly that call, the
    call is the last action of the run, and the directory is left as the
    failed program left it: nothing downstream is created and nothing is
    removed.  When the failed call is the signer, only messages precede
    it, so neither the query nor the response artifact has been
    touched. *)
Theorem fail_fast (rich : Rich.library) (exec : programs)
    (sd file : path) (dir : gmap string string)
    (args : list string) (res : CompletedProcess) (after : gmap string string) :
  In (Run args res after) (log (main rich exec sd file dir).2) ->
  checked_step file args ->
  returncode res <> 0 ->
  (main rich exec sd file dir).1 = inl (CalledProcessError (returncode res) args) /\
  entries (main rich exec sd file dir).2 = after /\
  exists pre, log (main rich exec sd file dir).2 = pre ++ [Run args res after] /\
    ((exists o, args = cmd_clearsign o file) -> forallb is_print pre = true).
Proof.
  destruct (main rich exec sd file dir) as [r st] eqn:Hm. simpl.
  intros Hin Hstep Hrc.
  run_sign Hm; rc_facts; log_cases Hin; simpl in Hrc; try congruence;
    try (by not_checked Hstep).
  all: split; [reflexivity|split; [reflexivity|]]; cbn [log]; split_last.
  all: try (intros _; reflexivity).
  all: intros [o Ho]; discriminate Ho.
Qed.

Lemma fail_fast_witness :
  let args := cmd_clearsign ["vault"; "sigs"; "notes.md.000.asc"] notes_md in
  let res := proc 1 EmptyString "failure" in
  let run := main plain_rich (exec_failing "--clearsign") vault_sigs notes_md ∅ in
  In (Run args res ∅) (log run.2) /\
  checked_step notes_md args /\
  returncode res <> 0 /\
  run.1 = inl (CalledProcessError 1 args) /\
  entries run.2 = ∅ /\
  commands (log run.2) = [args].
Proof.
  cbv zeta.
  assert (h1 : In (Run (cmd_clearsign ["vault"; "sigs"; "notes.md.000.asc"] notes_md)
                     (proc 1 EmptyString "failure") ∅)
                 (log (main plain_rich (exec_failing "--clearsign") vault_sigs
                         notes_md ∅).2))
    by in_log.
  assert (h2 : checked_step notes_md
                 (cmd_clearsign ["vault"; "sigs"; "notes.md.000.asc"] notes_md))
    by (left; eexists; reflexivity).
  assert (h3 : returncode (proc 1 EmptyString "failure") <> 0) by discriminate.
  destruct (fail_fast _ _ _ _ _ _ _ _ h1 h2 h3) as (c1 & c2 & _).
  refine (conj h1 (conj h2 (conj h3 (conj c1 (conj c2 _))))).
  vm_compute. reflexivity.
Defined.

(** ** Self-verification *)




(** ** The timestamp response *)

(** C3 as stated fails: when every program succeeds and the HTTP client
    writes nothing, the response file is empty after the submission, yet
    [sign] raises nothing and goes on to the timestamp verification. *)
Lemma empty_response_is_accepted :
  let run := main plain_rich exec_ok vault_sigs notes_md ∅ in
  entries run.2 !! "notes.md.000.asc.apple.tsr" = Some EmptyString /\
  run.1 = inr tt /\
  last (commands (log run.2)) =
    Some (cmd_ts_verify vault_sigs
            ["vault"; "sigs"; "notes.md.000.asc.apple.tsr"]
            ["vault"; "sigs"; "notes.md.000.asc.apple.tsq"]).
Proof. repeat split; vm_compute; reflexivity. Qed.

(** C3 (amended).  After the submission has completed without a
    transport error (the HTTP client exited with status 0), if the
    response file is absent, [sign] fails with [AssertionError]; the
    submission is the last action of the run, so the timestamp
    verification is not started. *)
Theorem missing_response_is_fatal (rich : Rich.library) (exec : programs)
    (sd file : path)
    (dir : gmap string string) (q : path) (tsr : string)
    (res : CompletedProcess) (after : gmap string string) :
  In (Run (cmd_curl q (joinpath sd tsr)) res after)
     (log (main rich exec sd file dir).2) ->
  returncode res = 0 ->
  after !! tsr = None ->
  (main rich exec sd file dir).1 = inl AssertionError /\
  entries (main rich exec sd file dir).2 = after /\
  exists pre,
    log (main rich exec sd file dir).2 =
      pre ++ [Run (cmd_curl q (joinpath sd tsr)) res after].
Proof.
  destruct (main rich exec sd file dir) as [r st] eqn:Hm. simpl.
  intros Hin Hrc Habsent.
  run_sign Hm; rc_facts; log_cases Hin; simpl in Hrc; try congruence.
  all: rewrite <- Hin; apply cmd_curl_inj in Hin; subst tsr.
  all: try match goal with
         | H : bool_decide (is_Some _) = true |- _ =>
             apply bool_decide_eq_true_1 in H; rewrite Habsent in H; by destruct H
         end.
  split; [reflexivity|split; [reflexivity|]]; cbn [log]. split_last.
Qed.

Lemma missing_response_is_fatal_witness :
  let tsr := "notes.md.000.asc.apple.tsr" in
  let q := ["vault"; "sigs"; "notes.md.000.asc.apple.tsq"] in
  let run := main plain_rich (exec_dropping tsr) vault_sigs notes_md ∅ in
  In (Run (cmd_curl q (joinpath vault_sigs tsr)) good ∅) (log run.2) /\
  returncode good = 0 /\
  (∅ : gmap string string) !! tsr = None /\
  run.1 = inl AssertionError /\
  entries run.2 = ∅.
Proof.
  cbv zeta.
  assert (h1 : In (Run (cmd_curl ["vault"; "sigs"; "notes.md.000.asc.apple.tsq"]
                          (joinpath vault_sigs "notes.md.000.asc.apple.tsr")) good ∅)
                 (log (main plain_rich (exec_dropping "notes.md.000.asc.apple.tsr")
                         vault_sigs notes_md ∅).2))
    by in_log.
  assert (h2 : returncode good = 0) by reflexivity.
  assert (h3 : (∅ : gmap string string) !! "notes.md.000.asc.apple.tsr" = None)
    by reflexivity.
  destruct (missing_response_is_fatal _ _ _ _ _ _ _ _ _ h1 h2 h3) as (c1 & c2 & _).
  exact (conj h1 (conj h2 (conj h3 (conj c1 c2)))).
Defined.




(** ** The final timestamp verification *)




(** ** More on version numbers *)

Lemma pretty_N_go_app (x : N) (s : string) :
  pretty_N_go x s = pretty_N_go x EmptyString +:+ s.
Proof.
  revert s. induction (N.lt_wf_0 x) as [x _ IH]; intros s.
  destruct (decide (x = 0)%N) as [->|Hx]; [by rewrite !pretty_N_go_0|].
  rewrite (pretty_N_go_step x s), (pretty_N_go_step x EmptyString) by lia.
  assert (x `div` 10 < x)%N as Hlt by (apply N.div_lt; lia).
  rewrite (IH _ Hlt (String _ s)), (IH _ Hlt (String _ EmptyString)).
  by rewrite append_assoc.
Qed.

Lemma pretty_N_last3 (x : N) :
  (1000 <= x)%N ->
  pretty x = pretty (x `div` 1000)%N +:+ last3 (x `mod` 1000)%N.
Proof.
  intros Hx. unfold pretty, pretty_N.
  assert (0 < x `div` 1000)%N as H3 by (apply N.div_str_pos_iff; lia).
  assert (0 < x `div` 10)%N as H1 by (apply N.div_str_pos_iff; lia).
  assert (0 < (x `div` 10) `div` 10)%N as H2.
  { rewrite N.Div0.div_div. apply N.div_str_pos_iff; lia. }
  rewrite (decide_False (P := x = 0%N)) by lia.
  rewrite (decide_False (P := (x `div` 1000)%N = 0%N)) by lia.
  rewrite (pretty_N_go_step x) by lia.
  rewrite (pretty_N_go_step (x `div` 10)) by lia.
  rewrite (pretty_N_go_step ((x `div` 10) `div` 10)) by lia.
  rewrite pretty_N_go_app, !N.Div0.div_div.
  change (10 * 10)%N with 100%N. change (100 * 10)%N with 1000%N.
  f_equal. unfold last3.
  assert (forall a b : N, a = b -> pretty_N_char a = pretty_N_char b) as E
    by (by intros ? ? ->).
  f_equal; [apply E|f_equal; [apply E|f_equal; apply E]].
  all: zify; Z.to_euclidean_division_equations; lia.
Qed.

Lemma last3_length (m : N) : String.length (last3 m) = 3%nat.
Proof. reflexivity. Qed.

Lemma last3_small (m : Z) :
  0 <= m <= 999 ->
  Py.format_03 m = last3 (Z.to_N m).
Proof.
  intros Hm.
  assert (Hall : forallb (fun m => bool_decide (Py.format_03 m = last3 (Z.to_N m)))
                   (seqZ 0 1000) = true) by (vm_compute; reflexivity).
  rewrite forallb_forall in Hall.
  assert (In m (seqZ 0 1000)) as Hin.
  { apply list_elem_of_In, elem_of_seqZ. lia. }
  by apply Hall, bool_decide_eq_true_1 in Hin.
Qed.

(** From version 1000 on, the formatted version is the decimal text,
    and its last three characters are those of the version modulo 1000. *)
Lemma format_03_split (n : Z) :
  1000 <= n ->
  Py.format_03 n = pretty (n `div` 1000) +:+ Py.format_03 (n `mod` 1000).
Proof.
  intros Hn.
  rewrite (last3_small (n `mod` 1000))
    by (pose proof (Z.mod_pos_bound n 1000); lia).
  unfold Py.format_03. rewrite (proj2 (Z.ltb_ge n 0)) by lia.
  assert (pretty n = pretty (n `div` 1000) +:+ last3 (Z.to_N (n `mod` 1000))) as ->.
  { destruct n as [|p|p]; try lia.
    change (pretty (Z.pos p)) with (pretty (N.pos p)).
    rewrite pretty_N_last3 by lia. f_equal.
    - replace (Z.pos p `div` 1000) with (Z.of_N (N.pos p `div` 1000))
        by (by rewrite N2Z.inj_div).
      assert (0 < N.pos p `div` 1000)%N as Hq by (apply N.div_str_pos_iff; lia).
      by destruct (N.pos p `div` 1000)%N.
    - f_equal. rewrite <- (N2Z.id (N.pos p `mod` 1000)). by rewrite N2Z.inj_mod. }
  unfold Py.zfill. rewrite length_append, last3_length.
  by replace (3 - _)%nat with 0%nat by lia.
Qed.

Lemma slice_last3 (a v : string) :
  String.length v = 3%nat ->
  Py.slice (a +:+ v +:+ ".asc") (-7) (-4) = v.
Proof.
  intros Hv. unfold Py.slice, Py.len.
  rewrite !length_append, Hv, !chars_app. simpl String.length.
  change (-7) with (- (7)). change (-4) with (- (4)).
  rewrite !clamp_from_end by lia.
  replace (Z.to_nat _ - _)%nat with 3%nat by lia.
  replace (Z.to_nat _) with (length (Py.chars a))
    by (rewrite chars_length; lia).
  rewrite drop_app_length.
  rewrite take_app_length' by (by rewrite chars_length).
  apply text_chars.
Qed.

Lemma version_of_output_name (d : string) (n : Z) :
  0 <= n -> version_of (output_name d n) = Some (n `mod` 1000).
Proof.
  intros Hn. unfold version_of, output_name.
  pose proof (Z.mod_pos_bound n 1000) as Hm.
  destruct (format_03_small (n `mod` 1000)) as (Hlen & _ & Hint); [lia|].
  destruct (decide (n < 1000)) as [Hlt|Hge].
  - rewrite Z.mod_small in * by lia. by rewrite slice_version.
  - rewrite format_03_split by lia.
    set (p := pretty (n `div` 1000)). set (f := Py.format_03 (n `mod` 1000)) in *.
    replace (d +:+ "." +:+ (p +:+ f) +:+ ".asc")
      with ((d +:+ "." +:+ p) +:+ f +:+ ".asc") by (by rewrite !append_assoc).
    by rewrite slice_last3.
Qed.

Lemma digits_tail_bound (b : bool) (acc : Z) (l : list ascii) (n : Z) :
  0 <= acc -> Py.digits_tail b acc l = Some n ->
  0 <= n < (acc + 1) * 10 ^ Z.of_nat (length l).
Proof.
  revert b acc. induction l as [|c l IH]; intros b acc Hacc; simpl Py.digits_tail.
  - destruct b; [done|]. intros [= <-].
    change (10 ^ Z.of_nat (length (@nil ascii))) with 1. lia.
  - rewrite length_cons, Nat2Z.inj_succ. rewrite Z.pow_succ_r; [|lia].
    assert (0 < 10 ^ Z.of_nat (length l)) by (apply Z.pow_pos_nonneg; lia).
    unfold Py.digit_value.
    destruct (_ && _)%nat eqn:Hd.
    + apply andb_prop in Hd as [H1%Nat.leb_le H2%Nat.leb_le].
      intros H'. apply IH in H'; [|lia]. nia.
    + destruct b; [done|]. destruct (Ascii.eqb c "_").
      * intros H'. apply IH in H'; [|lia]. nia.
      * destruct (Py.is_space c && _); [|done]. intros [= <-]. nia.
Qed.

Lemma digits_bound (l : list ascii) (n : Z) :
  Py.digits l = Some n -> 0 <= n < 10 ^ Z.of_nat (length l).
Proof.
  destruct l as [|c l]; [done|]. unfold Py.digits, Py.digit_value.
  destruct (_ && _)%nat eqn:Hd; [|done].
  apply andb_prop in Hd as [H1%Nat.leb_le H2%Nat.leb_le].
  intros H'%digits_tail_bound; [|lia].
  rewrite length_cons, Nat2Z.inj_succ, Z.pow_succ_r by lia.
  assert (0 < 10 ^ Z.of_nat (length l)) by (apply Z.pow_pos_nonneg; lia). nia.
Qed.

Lemma lstrip_length (l : list ascii) : (length (Py.lstrip l) <= length l)%nat.
Proof. induction l as [|c l IH]; simpl; [lia|]. destruct (Py.is_space c); simpl; lia. Qed.

(** [int] of a string of [k] characters is below [10 ^ k] in absolute
    value. *)
Lemma int_bound (s : string) (n : Z) :
  Py.int s = Some n -> - 10 ^ Py.len s < n < 10 ^ Py.len s.
Proof.
  unfold Py.int, Py.len. rewrite <- chars_length.
  pose proof (lstrip_length (Py.chars s)) as Hlen.
  destruct (Py.lstrip (Py.chars s)) as [|c l] eqn:Hl; [done|].
  simpl in Hlen.
  assert (forall k : nat, (k <= length (Py.chars s))%nat ->
            10 ^ Z.of_nat k <= 10 ^ Z.of_nat (length (Py.chars s))) as Hmono.
  { intros k Hk. apply Z.pow_le_mono_r; lia. }
  destruct (Ascii.eqb c "-"); [|destruct (Ascii.eqb c "+")].
  - destruct (Py.digits l) as [m|] eqn:Hm; [|done]. intros [= <-].
    apply digits_bound in Hm. specialize (Hmono (length l)). lia.
  - intros Hm%digits_bound. specialize (Hmono (length l)). lia.
  - intros Hm%digits_bound. specialize (Hmono (length (c :: l))). simpl length in *. lia.
Qed.

Lemma slice_length (s : string) (i j : Z) :
  i <= j -> j < 0 -> Py.len (Py.slice s i j) <= j - i.
Proof.
  intros Hij Hj. unfold Py.slice, Py.len at 1.
  rewrite <- chars_length. unfold Py.text.
  rewrite String.list_ascii_of_string_of_list_ascii, length_take.
  unfold Py.clamp. rewrite !(proj2 (Z.ltb_lt _ 0)) by lia. lia.
Qed.

Lemma version_of_bound (x : string) (n : Z) :
  version_of x = Some n -> -1000 < n < 1000.
Proof.
  unfold version_of. intros Hv%int_bound.
  pose proof (slice_length x (-7) (-4)) as Hs.
  assert (10 ^ Py.len (Py.slice x (-7) (-4)) <= 10 ^ 3)
    by (apply Z.pow_le_mono_r; lia).
  lia.
Qed.

Lemma digit_not_space (c : ascii) (d : Z) :
  Py.digit_value c = Some d ->
  Py.is_space c = false /\ Ascii.eqb c "-" = false /\ Ascii.eqb c "+" = false.
Proof.
  unfold Py.digit_value, Py.is_space.
  destruct (_ && _)%nat eqn:Hd; [|done]. intros _.
  apply andb_prop in Hd as [H1%Nat.leb_le H2%Nat.leb_le].
  split; [|split].
  - repeat match goal with
           | |- context [(?a <=? ?b)%nat] => destruct (Nat.leb_spec a b); try lia
           | |- context [(?a =? ?b)%nat] => destruct (Nat.eqb_spec a b); try lia
           end; reflexivity.
  - destruct (Ascii.eqb_spec c "-") as [->|]; [|done]. vm_compute in H1. lia.
  - destruct (Ascii.eqb_spec c "+") as [->|]; [|done]. vm_compute in H1. lia.
Qed.

Lemma digits_tail_all_digits (acc : Z) (l : list ascii) :
  forallb (fun c => bool_decide (is_Some (Py.digit_value c))) l = true ->
  is_Some (Py.digits_tail false acc l).
Proof.
  revert acc. induction l as [|c l IH]; intros acc; simpl; [eauto|].
  intros [Hc%bool_decide_eq_true_1 Hl]%andb_prop.
  destruct Hc as [d Hd]. rewrite Hd. by apply IH.
Qed.

(** [int] accepts every non-empty string of digits. *)
Lemma int_all_digits (s : string) :
  Py.all_digits s = true -> is_Some (Py.int s).
Proof.
  unfold Py.all_digits, Py.int. intros [Hne Hall]%andb_prop.
  rewrite <- chars_length in Hne.
  destruct (Py.chars s) as [|c l]; [done|].
  simpl in Hall. apply andb_prop in Hall as [Hc%bool_decide_eq_true_1 Hl].
  destruct Hc as [d Hd].
  destruct (digit_not_space c d Hd) as (Hsp & Hm & Hp).
  simpl Py.lstrip. rewrite Hsp, Hm, Hp.
  unfold Py.digits. rewrite Hd. by apply digits_tail_all_digits.
Qed.

(** The entries of the directory built by [artifacts]. *)
Lemma artifacts_lookup (d : string) (k : nat) (x : string) :
  is_Some (artifacts d k !! x) <->
  exists n : nat, (n <= k)%nat /\ x = output_name d (Z.of_nat n).
Proof.
  unfold artifacts.
  set (l := (fun n : nat => (output_name d (Z.of_nat n), "signed")) <$> seq 0 (S k)).
  assert (x ∈ l.*1 <-> exists n : nat, (n <= k)%nat /\ x = output_name d (Z.of_nat n))
    as <-.
  { unfold l. rewrite <- list_fmap_compose, list_elem_of_fmap.
    split.
    - intros (n & -> & Hn%elem_of_seq). exists n. split; [lia|done].
    - intros (n & Hn & ->). exists n. split; [done|]. apply elem_of_seq. lia. }
  rewrite <- not_eq_None_Some, <- not_elem_of_list_to_map.
  split; [|by intros H H'].
  intros H. by destruct (decide (x ∈ l.*1)).
Qed.

Lemma literal_notes_md : literal_name "notes.md".
Proof. unfold literal_name. repeat constructor; discriminate. Qed.

Lemma next_version_spec_witness :
  literal_name "notes.md" /\
  0 <= 2 <= 999 /\
  (forall n, 0 <= n <= 2 ->
     is_Some (artifacts "notes.md" 2 !! output_name "notes.md" n)) /\
  (forall x, is_Some (artifacts "notes.md" 2 !! x) ->
     Fnmatch.fnmatch x ("notes.md" +:+ ".*.asc") = true ->
     exists n, 0 <= n <= 2 /\ x = output_name "notes.md" n) /\
  next_version (artifacts "notes.md" 2) "notes.md" = inr (2 + 1).
Proof.
  assert (h1 : literal_name "notes.md") by exact literal_notes_md.
  assert (h2 : 0 <= 2 <= 999) by lia.
  assert (h3 : forall n, 0 <= n <= 2 ->
            is_Some (artifacts "notes.md" 2 !! output_name "notes.md" n)).
  { intros n Hn. apply artifacts_lookup. exists (Z.to_nat n).
    split; [lia|]. f_equal. lia. }
  assert (h4 : forall x, is_Some (artifacts "notes.md" 2 !! x) ->
            Fnmatch.fnmatch x ("notes.md" +:+ ".*.asc") = true ->
            exists n, 0 <= n <= 2 /\ x = output_name "notes.md" n).
  { intros x (m & Hm & ->)%artifacts_lookup _. exists (Z.of_nat m).
    split; [lia|done]. }
  exact (conj h1 (conj h2 (conj h3 (conj h4 (next_version_spec _ _ _ h1 h2 h3 h4))))).
Defined.

Lemma next_version_fresh_witness :
  Py.contains "**" ("notes.md" +:+ ".*.asc") = false /\
  (forall x, is_Some (({[ "other.md.000.asc" := "signed" ]} : gmap string string) !! x) ->
     Fnmatch.fnmatch x ("notes.md" +:+ ".*.asc") = false) /\
  next_version {[ "other.md.000.asc" := "signed" ]} "notes.md" = inr 0.
Proof.
  assert (h1 : Py.contains "**" ("notes.md" +:+ ".*.asc") = false)
    by (vm_compute; reflexivity).
  assert (h2 : forall x,
            is_Some (({[ "other.md.000.asc" := "signed" ]} : gmap string string) !! x) ->
            Fnmatch.fnmatch x ("notes.md" +:+ ".*.asc") = false).
  { intros x [c Hc]. apply lookup_singleton_Some in Hc as [<- _].
    vm_compute. reflexivity. }
  exact (conj h1 (conj h2 (next_version_fresh _ _ h1 h2))).
Defined.

Lemma unselected_entry_is_ignored_witness :
  Fnmatch.fnmatch "other.md.007.asc" ("notes.md" +:+ ".*.asc") = false /\
  next_version (artifacts "notes.md" 0) "notes.md" = inr 1 /\
  next_version (<["other.md.007.asc" := "signed"]> (artifacts "notes.md" 0))
    "notes.md" = inr 1.
Proof.
  assert (h1 : Fnmatch.fnmatch "other.md.007.asc" ("notes.md" +:+ ".*.asc") = false)
    by (vm_compute; reflexivity).
  assert (h2 : next_version (artifacts "notes.md" 0) "notes.md" = inr 1)
    by (vm_compute; reflexivity).
  exact (conj h1 (conj h2 (unselected_entry_is_ignored _ _ _ "signed" _ h1 h2))).
Defined.

Lemma fnmatch_literal_iff_witness :
  literal_name "notes.md" /\
  (Fnmatch.fnmatch "notes.md.bak.asc" ("notes.md" +:+ ".*.asc") = true <->
   exists v, "notes.md.bak.asc" = "notes.md" +:+ "." +:+ v +:+ ".asc").
Proof.
  exact (conj literal_notes_md
           (fnmatch_literal_iff "notes.md" "notes.md.bak.asc" literal_notes_md)).
Defined.

(** X5.  Reading back what was written: from the artifact name of
    version [n] the scan reads [n] modulo 1000, so the name round-trips
    through the scan exactly for the versions below 1000. *)
Theorem version_read_back (d : string) (n : Z) :
  0 <= n ->
  version_of (output_name d n) = Some (n `mod` 1000) /\
  (version_of (output_name d n) = Some n <-> n < 1000).
Proof.
  intros Hn. rewrite version_of_output_name by done. split; [done|].
  split.
  - intros [= H]. pose proof (Z.mod_pos_bound n 1000). lia.
  - intros H. by rewrite Z.mod_small by lia.
Qed.

Lemma version_read_back_witness :
  0 <= 1234 /\
  version_of (output_name "notes.md" 1234) = Some (1234 `mod` 1000) /\
  (version_of (output_name "notes.md" 1234) = Some 1234 <-> 1234 < 1000).
Proof.
  assert (h : 0 <= 1234) by lia.
  exact (conj h (version_read_back "notes.md" 1234 h)).
Defined.

(** X6.  Whatever the directory holds, a version scan that completes
    yields a version between 0 and 1000: the slice has at most three
    characters. *)
Theorem next_version_range (dir : gmap string string) (d : string) (v : Z) :
  next_version dir d = inr v -> 0 <= v <= 1000.
Proof.
  unfold next_version. destruct (glob dir _) as [e|names]; [done|].
  intros (Hacc & Hall & Hwit)%scan_versions_inv. split; [done|].
  destruct Hwit as [->|(x & Hx & Hv)]; [lia|].
  apply version_of_bound in Hv. lia.
Qed.

Lemma next_version_range_witness :
  next_version {[ "notes.md.+12.asc" := "signed" ]} "notes.md" = inr 13 /\
  0 <= 13 <= 1000.
Proof.
  assert (h : next_version {[ "notes.md.+12.asc" := "signed" ]} "notes.md" = inr 13)
    by (vm_compute; reflexivity).
  exact (conj h (next_version_range _ _ _ h)).
Defined.

(** X7.  From 999 on the version no longer grows: for a literal
    document name, once the artifacts 000 to [k] with [k >= 999] are in
    place (and the pattern selects nothing but artifacts of the
    document), every run computes version 1000. *)
Theorem next_version_saturates (dir : gmap string string) (d : string) (k : Z) :
  literal_name d ->
  999 <= k ->
  (forall n, 0 <= n <= k -> is_Some (dir !! output_name d n)) ->
  (forall x, is_Some (dir !! x) -> Fnmatch.fnmatch x (d +:+ ".*.asc") = true ->
             exists n, 0 <= n /\ x = output_name d n) ->
  next_version dir d = inr 1000.
Proof.
  intros Hd Hk Hpresent Honly. unfold next_version.
  destruct (glob dir (d +:+ ".*.asc")) as [e|names] eqn:Hglob.
  { unfold glob in Hglob. by rewrite literal_no_double_star in Hglob. }
  destruct (scan_versions_bounds names 0 1000) as (v & -> & Hb & Hmax); [|lia|].
  { intros x Hx. apply (glob_spec _ _ _ _ Hglob) in Hx as [Hx Hm].
    destruct (Honly x Hx Hm) as (n & Hn & ->). exists (n `mod` 1000).
    split; [by apply version_of_output_name|].
    pose proof (Z.mod_pos_bound n 1000). lia. }
  f_equal. assert (1000 <= v); [|lia].
  apply (Hmax (output_name d 999) 999).
  - apply (glob_spec _ _ _ _ Hglob). split; [apply Hpresent; lia|].
    by apply fnmatch_artifact.
  - by rewrite version_of_output_name.
Qed.

Lemma next_version_saturates_witness :
  literal_name "notes.md" /\
  999 <= 1005 /\
  (forall n, 0 <= n <= 1005 ->
     is_Some (artifacts "notes.md" 1005 !! output_name "notes.md" n)) /\
  (forall x, is_Some (artifacts "notes.md" 1005 !! x) ->
     Fnmatch.fnmatch x ("notes.md" +:+ ".*.asc") = true ->
     exists n, 0 <= n /\ x = output_name "notes.md" n) /\
  next_version (artifacts "notes.md" 1005) "notes.md" = inr 1000.
Proof.
  assert (h1 : literal_name "notes.md") by exact literal_notes_md.
  assert (h2 : 999 <= 1005) by lia.
  assert (h3 : forall n, 0 <= n <= 1005 ->
            is_Some (artifacts "notes.md" 1005 !! output_name "notes.md" n)).
  { intros n Hn. apply artifacts_lookup. exists (Z.to_nat n).
    split; [lia|]. f_equal. lia. }
  assert (h4 : forall x, is_Some (artifacts "notes.md" 1005 !! x) ->
            Fnmatch.fnmatch x ("notes.md" +:+ ".*.asc") = true ->
            exists n, 0 <= n /\ x = output_name "notes.md" n).
  { intros x (m & Hm & ->)%artifacts_lookup _. exists (Z.of_nat m).
    split; [lia|done]. }
  exact (conj h1 (conj h2 (conj h3 (conj h4
           (next_version_saturates _ _ _ h1 h2 h3 h4))))).
Defined.

(** X8.  The scan is total on well-formed directories: when the slice
    [name[-7:-4]] of every entry that the glob yields is a string of
    digits, the scan completes with a version. *)
Theorem scan_total_on_digit_entries (dir : gmap string string) (d : string)
    (names : list string) :
  glob dir (d +:+ ".*.asc") = inr names ->
  (forall x, In x names -> Py.all_digits (Py.slice x (-7) (-4)) = true) ->
  exists v, next_version dir d = inr v.
Proof.
  intros Hglob Hall. unfold next_version. rewrite Hglob.
  destruct (scan_versions_bounds names 0 1000) as (v & Hv & _); [|lia|by exists v].
  intros x Hx. destruct (int_all_digits _ (Hall x Hx)) as [n Hn].
  exists n. split; [done|]. apply version_of_bound in Hn. lia.
Qed.

Lemma scan_total_on_digit_entries_witness :
  glob {[ "notes.md.txt.041.asc" := "signed" ]} ("notes.md" +:+ ".*.asc")
    = inr ["notes.md.txt.041.asc"] /\
  (forall x, In x ["notes.md.txt.041.asc"] ->
     Py.all_digits (Py.slice x (-7) (-4)) = true) /\
  exists v, next_version {[ "notes.md.txt.041.asc" := "signed" ]} "notes.md" = inr v.
Proof.
  assert (h1 : glob {[ "notes.md.txt.041.asc" := "signed" ]} ("notes.md" +:+ ".*.asc")
               = inr ["notes.md.txt.041.asc"]) by (vm_compute; reflexivity).
  assert (h2 : forall x, In x ["notes.md.txt.041.asc"] ->
            Py.all_digits (Py.slice x (-7) (-4)) = true).
  { intros x [<-|[]]. vm_compute. reflexivity. }
  exact (conj h1 (conj h2 (scan_total_on_digit_entries _ _ _ h1 h2))).
Defined.

(** ** More on the workflow *)






(** *** Messages that render *)

Lemma plain_append (s t : string) :
  plain s = true -> plain t = true -> plain (s +:+ t) = true.
Proof.
  unfold plain. rewrite chars_app, forallb_app. by intros -> ->.
Qed.

Lemma plain_concat (parts : list string) :
  Forall (fun p => plain p = true) parts -> plain (String.concat "/" parts) = true.
Proof.
  induction 1 as [|p parts Hp Hparts IH]; [reflexivity|].
  destruct parts as [|p' parts]; [done|].
  change (String.concat "/" (p :: p' :: parts))
    with (p +:+ "/" +:+ String.concat "/" (p' :: parts)).
  by repeat apply plain_append.
Qed.

Lemma plain_rel_str (parts : list string) :
  Forall (fun p => plain p = true) parts -> plain (rel_str parts) = true.
Proof.
  intros H. destruct parts; [reflexivity|]. by apply plain_concat.
Qed.

Lemma plain_format_03 (v : Z) : 0 <= v <= 1000 -> plain (Py.format_03 v) = true.
Proof.
  intros Hv.
  assert (forallb (fun n => plain (Py.format_03 (Z.of_nat n))) (seq 0 1001) = true)
    as Hall by (vm_compute; reflexivity).
  rewrite forallb_forall in Hall. specialize (Hall (Z.to_nat v)).
  rewrite Z2Nat.id in Hall by lia. apply Hall, in_seq. lia.
Qed.

Lemma plain_name (p : path) :
  Forall (fun c => plain c = true) p -> plain (name p) = true.
Proof.
  unfold name. intros H. destruct (last p) as [x|] eqn:Hx; [|reflexivity].
  simpl. apply last_Some_elem_of in Hx. by eapply Forall_forall in H.
Qed.

(** Text without an opening bracket holds no tag. *)
Lemma parse_from_plain (l rest : list ascii) (k : nat) :
  forallb (fun c => negb (Ascii.eqb c "[")) l = true ->
  exists k', Rich.parse_from k 0 (l ++ rest) = Rich.parse_from k' 0 rest.
Proof.
  revert k. induction l as [|c l IH]; intros k H; [by exists k|].
  simpl in H. apply andb_prop in H as [Hc Hl]. simpl.
  destruct (Ascii.eqb c "\"); [by apply IH|].
  apply negb_true_iff in Hc. rewrite Hc. by apply IH.
Qed.

Lemma parse_from_closing (k : nat) :
  Rich.parse_from k 0 (Py.chars "[/]") =
  if Nat.even k then [{| Rich.name := "/"; Rich.parameters := None |}] else [].
Proof.
  change (Py.chars "[/]") with ["["; "/"; "]"]%char.
  cbn [Rich.parse_from]. change (Ascii.eqb "[" "\") with false.
  change (Ascii.eqb "[" "[") with true. cbv iota.
  change (Rich.tag_text ["/"; "]"]%char) with (Some ["/"%char]).
  cbv iota. destruct (Nat.even k); reflexivity.
Qed.

Lemma render_tags_one (lib : Rich.library) (t : string) (tail : list Rich.Tag) :
  Rich.startswith "/" t = false ->
  tail = [] \/ tail = [{| Rich.name := "/"; Rich.parameters := None |}] ->
  Rich.render_tags lib [] ({| Rich.name := t; Rich.parameters := None |} :: tail) = true.
Proof.
  intros Ht [->| ->]; cbn [Rich.render_tags Rich.name Rich.parameters]; rewrite Ht;
    [reflexivity|].
  change (Rich.startswith "/" "/") with true.
  change (Py.strip (Py.slice_from "/" 1)) with EmptyString.
  cbv iota beta. cbn [Rich.name Rich.parameters].
  by destruct (Rich.startswith "@" _).
Qed.

(** A message that opens one tag, interpolates text without an opening
    bracket and closes the tag renders; so does one that leaves the tag
    open. *)
Lemma render_plain_closed (lib : Rich.library) (pre t s : string) :
  (forall rest, Rich.parse_from 0 0 (Py.chars pre ++ rest) =
     {| Rich.name := t; Rich.parameters := None |} :: Rich.parse_from 0 0 rest) ->
  Rich.startswith "/" t = false ->
  plain s = true ->
  Rich.render lib (pre +:+ s +:+ "[/]") = true.
Proof.
  intros Hpre Ht Hs. unfold Rich.render, Rich.parse.
  destruct (Py.contains _ _); [|reflexivity].
  rewrite !chars_app, Hpre.
  destruct (parse_from_plain (Py.chars s) (Py.chars "[/]") 0 Hs) as [k ->].
  rewrite parse_from_closing. apply render_tags_one; [done|].
  destruct (Nat.even k); auto.
Qed.

Lemma render_plain_open (lib : Rich.library) (pre t s : string) :
  (forall rest, Rich.parse_from 0 0 (Py.chars pre ++ rest) =
     {| Rich.name := t; Rich.parameters := None |} :: Rich.parse_from 0 0 rest) ->
  Rich.startswith "/" t = false ->
  plain s = true ->
  Rich.render lib (pre +:+ s) = true.
Proof.
  intros Hpre Ht Hs. unfold Rich.render, Rich.parse.
  destruct (Py.contains _ _); [|reflexivity].
  rewrite chars_app, Hpre.
  destruct (parse_from_plain (Py.chars s) [] 0 Hs) as [k Hk].
  rewrite app_nil_r in Hk. rewrite Hk.
  replace (Rich.parse_from k 0 []) with (@nil Rich.Tag) by reflexivity.
  apply render_tags_one; auto.
Qed.

Lemma render_plain_message (lib : Rich.library) (s : string) :
  plain s = true ->
  Rich.render lib ("Signing file [cyan]" +:+ s +:+ "[/]") = true /\
  Rich.render lib ("Created signed file [magenta]" +:+ s +:+ "[/]") = true /\
  Rich.render lib ("[green]" +:+ s +:+ "[/]") = true /\
  Rich.render lib ("[red]" +:+ s +:+ "[/]") = true /\
  Rich.render lib ("Created timestamp query file [yellow]" +:+ s +:+ "[/]") = true /\
  Rich.render lib ("Received timestamp response [magenta]" +:+ s +:+ "[/]") = true /\
  Rich.render lib ("[green]openssl ts: " +:+ s) = true /\
  Rich.render lib ("[red]" +:+ s) = true.
Proof.
  intros Hs. repeat split.
  1-6: by eapply render_plain_closed; [intros rest; reflexivity|reflexivity|].
  all: by eapply render_plain_open; [intros rest; reflexivity|reflexivity|].
Qed.

(** A second closing tag has nothing to close, whatever the library
    functions: the three messages of the sample runs that do not
    render. *)
Lemma render_closing_twice (lib : Rich.library) :
  Rich.render lib "Signing file [cyan]a[/].pdf[/]" = false /\
  Rich.render lib "Signing file [cyan]a[/].md[/]" = false /\
  Rich.render lib "[green]openssl ts: [/][/]" = false.
Proof.
  unfold Rich.render.
  repeat split.
  all: match goal with
       | |- (if ?c then _ else _) = _ =>
           replace c with true by (vm_compute; reflexivity)
       end.
  all: match goal with
       | |- Rich.render_tags _ _ (Rich.parse ?m) = _ =>
           let t := eval vm_compute in (Rich.parse m) in
           change (Rich.parse m) with t
       end.
  all: cbn [Rich.render_tags Rich.name Rich.parameters].
  all: repeat match goal with
         | |- context [Rich.startswith "/" ?s] =>
             let b := eval vm_compute in (Rich.startswith "/" s) in
             change (Rich.startswith "/" s) with b
         end.
  all: change (Py.strip (Py.slice_from "/" 1)) with EmptyString.
  all: cbv iota beta; cbn [Rich.name Rich.parameters].
  all: by destruct (Rich.startswith "@" _).
Qed.

(** X9.  A file outside the working directory stops [sign] in its
    opening message: [relative_to] raises [ValueError] before anything is
    printed, the extension is not looked at, the directory is untouched
    and no program is run. *)
Theorem outside_working_directory (rich : Rich.library) (exec : programs)
    (sd file : path)
    (dir : gmap string string) :
  relative_to file (parent sd) = None ->
  main rich exec sd file dir = (inl ValueError_relative_to, initial dir).
Proof.
  intros Hrel. unfold main, sign, bind, relative_str, raise.
  cbn [OB_DIR cli]. by rewrite Hrel.
Qed.

Lemma outside_working_directory_witness :
  relative_to ["elsewhere"; "notes.md"] (parent vault_sigs) = None /\
  main plain_rich exec_ok vault_sigs ["elsewhere"; "notes.md"] (artifacts "notes.md" 0)
    = (inl ValueError_relative_to, initial (artifacts "notes.md" 0)).
Proof.
  assert (h : relative_to ["elsewhere"; "notes.md"] (parent vault_sigs) = None)
    by (vm_compute; reflexivity).
  exact (conj h (outside_working_directory plain_rich exec_ok _ _ _ h)).
Defined.

(** X10.  Whatever the programs do, the programs that [sign] runs are an
    initial part of the five-step pipeline for the scanned version, in
    that order and with those arguments: no step is skipped, repeated or
    reordered, and the query is made from the source document.  When the
    scan raises, no program is run. *)
Theorem commands_follow_pipeline (rich : Rich.library) (exec : programs)
    (sd file : path)
    (dir : gmap string string) :
  match next_version dir (name file) with
  | inr v =>
      commands (log (main rich exec sd file dir).2) `prefix_of` pipeline sd file v
  | inl _ => commands (log (main rich exec sd file dir).2) = []
  end.
Proof.
  destruct (main rich exec sd file dir) as [r st] eqn:Hm. simpl.
  destruct (next_version dir (name file)) as [e|v] eqn:Hv.
  - run_sign Hm; reflexivity.
  - run_sign Hm; cbn; unfold pipeline; eexists; reflexivity.
Qed.

(** Exit codes of the programs, read off the [exec] equations. *)
Ltac exec_facts Hrc :=
  repeat match goal with
    | He : ?exec ?a ?d = ({| returncode := ?rc |}, _) |- _ =>
        lazymatch goal with
        | _ : rc = 0 |- _ => fail
        | _ => let X := fresh "Hz" in
               pose proof (Hrc a d) as X; rewrite He in X; simpl in X
        end
    end.

(** The text that [sign] puts into a message, read off the hypotheses:
    a relative path whose components hold no opening bracket, or the
    output of a program that writes none. *)
Ltac plain_text Hout :=
  first
    [ apply plain_rel_str; first [assumption | by apply Forall_drop]
    | match goal with
      | He : ?exec ?a ?d = _ |- _ =>
          let X := fresh in
          pose proof (Hout a d) as X; rewrite He in X; simpl in X;
          destruct X; assumption
      end ].

Ltac renders Hout :=
  match goal with
  | H : Rich.render ?lib ?m = false |- _ =>
      exfalso;
      let s := lazymatch m with
               | _ +:+ (?s +:+ "[/]") => s
               | _ +:+ ?s => s
               end in
      let Hp := fresh in
      assert (plain s = true) as Hp by plain_text Hout;
      pose proof (render_plain_message lib s Hp); intuition congruence
  end.

(** X11.  The complete run: for a supported file below the working
    directory whose scan yields version [v], when every program exits
    with status 0, the verifier's diagnostic carries the marker, the
    HTTP client removes nothing, and neither a component of the two
    paths nor the output of a program holds an opening bracket, [sign]
    returns normally after running exactly the five steps of the
    pipeline. *)
Theorem successful_run (rich : Rich.library) (exec : programs)
    (sd file : path)
    (dir : gmap string string) (rel : list string) (v : Z) :
  (forall args d, returncode (exec args d).1 = 0) ->
  (forall o d, Py.contains "Good signature" (stderr (exec (cmd_verify o) d).1) = true) ->
  (forall q r d n, is_Some (d !! n) -> is_Some ((exec (cmd_curl q r) d).2 !! n)) ->
  (forall args d, plain (stdout (exec args d).1) = true /\
                  plain (stderr (exec args d).1) = true) ->
  Forall (fun c => plain c = true) sd ->
  Forall (fun c => plain c = true) file ->
  relative_to file (parent sd) = Some rel ->
  suffix file ∈ [".md"; ".txt"; ".rst"] ->
  next_version dir (name file) = inr v ->
  (main rich exec sd file dir).1 = inr tt /\
  commands (log (main rich exec sd file dir).2) = pipeline sd file v.
Proof.
  intros Hrc Hmark Hkeep Hout Hsd Hfile Hrel Hsuf Hv.
  assert (0 <= v <= 1000) as Hrange.
  { revert Hv. unfold next_version. destruct (glob dir _) as [e|names]; [done|].
    intros (Hacc & Hall & Hwit)%scan_versions_inv. split; [done|].
    destruct Hwit as [->|(x & Hx & Hx')]; [lia|].
    apply version_of_bound in Hx'. lia. }
  assert (plain (output_name (name file) v) = true) as Hname.
  { unfold output_name. repeat apply plain_append; try reflexivity.
    - by apply plain_name.
    - by apply plain_format_03. }
  assert (Forall (fun c => plain c = true) rel) as Hrel'.
  { unfold relative_to in Hrel. destruct (decide _); [|done].
    injection Hrel as <-. by apply Forall_drop. }
  assert (forall x, plain x = true ->
            Forall (fun c => plain c = true)
              (joinpath sd (output_name (name file) v +:+ x)))
    as Hart.
  { intros x Hx. apply Forall_app. split; [done|].
    apply Forall_singleton. by apply plain_append. }
  assert (Forall (fun c => plain c = true)
            (joinpath sd (output_name (name file) v))) as Hasc.
  { apply Forall_app. split; [done|]. by apply Forall_singleton. }
  pose proof (Hart ".apple.tsq" eq_refl) as Htsq.
  pose proof (Hart ".apple.tsr" eq_refl) as Htsr.
  clear Hart.
  destruct (main rich exec sd file dir) as [r st] eqn:Hm. simpl.
  run_sign Hm; rc_facts; try kept; exec_facts Hrc; try congruence.
  all: try match goal with
         | H : bool_decide (is_Some _) = false |- _ =>
             apply bool_decide_eq_false_1 in H; contradiction
         | H : bool_decide (_ ∈ _) = false |- _ =>
             apply bool_decide_eq_false_1 in H; contradiction
         end.
  all: try match goal with
         | He : ?e (cmd_verify ?o) ?d = _, Hc : Py.contains _ _ = false |- _ =>
             pose proof (Hmark o d) as X; rewrite He in X; simpl in X; congruence
         end.
  all: try renders Hout.
  all: repeat split.
Qed.

Lemma successful_run_witness :
  (forall args d, returncode (exec_ok args d).1 = 0) /\
  (forall o d,
     Py.contains "Good signature" (stderr (exec_ok (cmd_verify o) d).1) = true) /\
  (forall q r d n, is_Some (d !! n) -> is_Some ((exec_ok (cmd_curl q r) d).2 !! n)) /\
  (forall args d, plain (stdout (exec_ok args d).1) = true /\
                  plain (stderr (exec_ok args d).1) = true) /\
  Forall (fun c => plain c = true) vault_sigs /\
  Forall (fun c => plain c = true) notes_md /\
  relative_to notes_md (parent vault_sigs) = Some ["notes.md"] /\
  suffix notes_md ∈ [".md"; ".txt"; ".rst"] /\
  next_version (artifacts "notes.md" 0) (name notes_md) = inr 1 /\
  (main plain_rich exec_ok vault_sigs notes_md (artifacts "notes.md" 0)).1 = inr tt /\
  commands (log (main plain_rich exec_ok vault_sigs notes_md
                   (artifacts "notes.md" 0)).2)
    = pipeline vault_sigs notes_md 1.
Proof.
  assert (h1 : forall args d, returncode (exec_ok args d).1 = 0)
    by (intros; reflexivity).
  assert (h2 : forall o d,
            Py.contains "Good signature" (stderr (exec_ok (cmd_verify o) d).1) = true)
    by (intros; reflexivity).
  assert (h3 : forall (q r : path) (d : gmap string string) (n : string),
            is_Some (d !! n) -> is_Some ((exec_ok (cmd_curl q r) d).2 !! n))
    by (intros q r d n H; exact H).
  assert (h3' : forall args d, plain (stdout (exec_ok args d).1) = true /\
                               plain (stderr (exec_ok args d).1) = true)
    by (intros; split; reflexivity).
  assert (h3a : Forall (fun c => plain c = true) vault_sigs)
    by (repeat constructor).
  assert (h3b : Forall (fun c => plain c = true) notes_md)
    by (repeat constructor).
  assert (h4 : relative_to notes_md (parent vault_sigs) = Some ["notes.md"])
    by (vm_compute; reflexivity).
  assert (h5 : suffix notes_md ∈ [".md"; ".txt"; ".rst"]) by compute_done.
  assert (h6 : next_version (artifacts "notes.md" 0) (name notes_md) = inr 1)
    by (vm_compute; reflexivity).
  exact (conj h1 (conj h2 (conj h3 (conj h3' (conj h3a (conj h3b (conj h4 (conj h5
           (conj h6 (successful_run plain_rich exec_ok _ _ _ _ _
                       h1 h2 h3 h3' h3a h3b h4 h5 h6)))))))))).
Defined.

Ltac noop_facts Hnoop :=
  repeat match goal with
    | He : ?exec ?a ?d = (_, ?after) |- _ =>
        is_var after;
        let X := fresh "Hn" in
        pose proof (Hnoop a d) as X; rewrite He in X; simpl in X; subst after
    end.

(** X12.  What [sign] writes itself: when the programs leave the
    directory as they find it, the directory after the run is either
    unchanged or differs in the one entry of the response file
    [<output>.apple.tsr], which [sign] has created empty (or emptied). *)
Theorem sign_writes_only_the_response (rich : Rich.library) (exec : programs)
    (sd file : path)
    (dir : gmap string string) :
  (forall args d, (exec args d).2 = d) ->
  entries (main rich exec sd file dir).2 = dir \/
  exists v,
    next_version dir (name file) = inr v /\
    entries (main rich exec sd file dir).2 =
      <[output_name (name file) v +:+ ".apple.tsr" := EmptyString]> dir.
Proof.
  intros Hnoop.
  destruct (main rich exec sd file dir) as [r st] eqn:Hm. simpl.
  run_sign Hm; noop_facts Hnoop; cbn [entries]; first [by left | right; eauto].
Qed.

Lemma sign_writes_only_the_response_witness :
  (forall args d, (exec_ok args d).2 = d) /\
  (entries (main plain_rich exec_ok vault_sigs notes_md ∅).2 = ∅ \/
   exists v,
     next_version ∅ (name notes_md) = inr v /\
     entries (main plain_rich exec_ok vault_sigs notes_md ∅).2 =
       <[output_name (name notes_md) v +:+ ".apple.tsr" := EmptyString]> ∅).
Proof.
  assert (h : forall args d, (exec_ok args d).2 = d) by (intros; reflexivity).
  exact (conj h (sign_writes_only_the_response plain_rich exec_ok vault_sigs notes_md
                   ∅ h)).
Defined.

(** X13.  The response file is opened only after signing,
    self-verification and query creation have all succeeded: when [sign]
    opens a file for writing, it is the response file of the scanned
    version, the signer has exited with status 0 on the directory as
    found, the verifier has exited with status 0 with the marker in its
    diagnostic on the directory the signer left, and the query generator
    has exited with status 0 on the directory the verifier left. *)
Theorem response_opened_after_query (rich : Rich.library) (exec : programs)
    (sd file : path)
    (dir : gmap string string) (n : string) :
  In (OpenW n) (log (main rich exec sd file dir).2) ->
  exists v r1 a1 r2 a2 r3 a3,
    next_version dir (name file) = inr v /\
    n = output_name (name file) v +:+ ".apple.tsr" /\
    exec (cmd_clearsign (joinpath sd (output_name (name file) v)) file) dir = (r1, a1) /\
    returncode r1 = 0 /\
    exec (cmd_verify (joinpath sd (output_name (name file) v))) a1 = (r2, a2) /\
    returncode r2 = 0 /\
    Py.contains "Good signature" (stderr r2) = true /\
    exec (cmd_ts_query file
            (joinpath sd (output_name (name file) v +:+ ".apple.tsq"))) a2 = (r3, a3) /\
    returncode r3 = 0.
Proof.
  destruct (main rich exec sd file dir) as [r st] eqn:Hm. simpl.
  intros Hin.
  run_sign Hm; rc_facts; cbn in Hin;
    repeat (destruct Hin as [Hin|Hin]; [try discriminate Hin|]);
    try contradiction Hin.
  all: injection Hin as <-.
  all: do 7 eexists; split; [reflexivity|]; split; [reflexivity|].
  all: split; [eassumption|]; split; [done|].
  all: split; [eassumption|]; split; [done|]; split; [done|].
  all: split; [eassumption|done].
Qed.

Lemma response_opened_after_query_witness :
  In (OpenW "notes.md.000.asc.apple.tsr")
     (log (main plain_rich exec_ok vault_sigs notes_md ∅).2) /\
  exists v r1 a1 r2 a2 r3 a3,
    next_version ∅ (name notes_md) = inr v /\
    "notes.md.000.asc.apple.tsr" = output_name (name notes_md) v +:+ ".apple.tsr" /\
    exec_ok (cmd_clearsign (joinpath vault_sigs (output_name (name notes_md) v))
               notes_md) ∅ = (r1, a1) /\
    returncode r1 = 0 /\
    exec_ok (cmd_verify (joinpath vault_sigs (output_name (name notes_md) v))) a1
      = (r2, a2) /\
    returncode r2 = 0 /\
    Py.contains "Good signature" (stderr r2) = true /\
    exec_ok (cmd_ts_query notes_md
               (joinpath vault_sigs (output_name (name notes_md) v +:+ ".apple.tsq")))
      a2 = (r3, a3) /\
    returncode r3 = 0.
Proof.
  assert (h : In (OpenW "notes.md.000.asc.apple.tsr")
                (log (main plain_rich exec_ok vault_sigs notes_md ∅).2)) by in_log.
  exact (conj h (response_opened_after_query plain_rich exec_ok vault_sigs notes_md
                   ∅ _ h)).
Defined.



